(** * The buy and cancel handlers of the NFT page

    A shallow embedding of [buyNftTransaction] and
    [cancelListingTransaction] of [src/pages/nfts/[address].tsx]: the two
    handlers that derive program addresses, build the auction-house
    instructions, have the wallet sign the transaction, send it and wait
    for its confirmation.

    The handlers are [async] functions that may throw; they are modelled
    in a writer monad over the calls they make to their collaborators
    (wallet, connection, query, toasts, login, the auction-house SDK),
    with JavaScript completions (normal or thrown) as results.  What
    comes from [@solana/web3.js], [bn.js] and
    [@metaplex-foundation/mpl-auction-house] is an interface
    ([Web3], [AuctionHouseProgram]): the theorems hold for every
    implementation of it. *)

From Stdlib Require Import List String Ascii ZArith Bool Lia.
Import ListNotations.
Local Open Scope string_scope.
Local Open Scope Z_scope.

Set Implicit Arguments.

(** ** JavaScript values the handlers use *)

(** A thrown [Error]; the handlers read only [e.message]. *)
Record Error : Type := { message : string }.

(** How the evaluation of an expression or the [await] of a promise ends. *)
Inductive Completion (A : Type) : Type :=
| Normal (a : A)
| Throw (e : Error).
Arguments Normal {A} a.
Arguments Throw {A} e.

(** [x || null] on a boolean [x]: the value is [true] or [null]. *)
Inductive BoolOrNull : Type :=
| JsBool (b : bool)
| JsNull.

Definition or_null (b : bool) : BoolOrNull :=
  if b then JsBool true else JsNull.

Definition truthy (v : BoolOrNull) : bool :=
  match v with
  | JsBool b => b
  | JsNull => false
  end.

(** Ramda's [equals] on two values that are a string or [undefined]. *)
Definition equals (a b : option string) : bool :=
  match a, b with
  | Some x, Some y => String.eqb x y
  | None, None => true
  | _, _ => false
  end.

(** ** The records of the data layer (the fields the queries select) *)

Module AuctionHouse.
Record t : Type := {
  address : string;
  treasuryMint : string;
  auctionHouseTreasury : string;
  treasuryWithdrawalDestination : string;
  feeWithdrawalDestination : string;
  authority : string;
  creator : string;
  auctionHouseFeeAccount : string;
  bump : Z;
  treasuryBump : Z;
  feePayerBump : Z;
  sellerFeeBasisPoints : Z;
  requiresSignOff : bool;
  canChangeSalePrice : bool
}.
End AuctionHouse.

Module Marketplace.
Record t : Type := {
  subdomain : string;
  name : string;
  ownerAddress : string;
  auctionHouse : AuctionHouse.t
}.
End Marketplace.

Module NftOwner.
Record t : Type := {
  address : string;
  associatedTokenAccountAddress : string
}.
End NftOwner.

Module NftCreator.
Record t : Type := { address : string }.
End NftCreator.

(** [price] is a big number in the source ([listing.price.toNumber()]);
  here it is the integer it holds. *)
Module Listing.
Record t : Type := {
  address : string;
  auctionHouse : string;
  bookkeeper : string;
  seller : string;
  metadata : string;
  purchaseReceipt : option string;
  price : Z;
  tokenSize : Z;
  bump : Z;
  tradeState : string;
  tradeStateBump : Z;
  createdAt : string;
  canceledAt : option string
}.
End Listing.

Module Offer.
Record t : Type := {
  address : string;
  tradeState : string;
  price : Z;
  buyer : string;
  createdAt : string;
  auctionHouse : string
}.
End Offer.

Module Nft.
Record t : Type := {
  name : string;
  address : string;
  mintAddress : string;
  owner : NftOwner.t;
  creators : list NftCreator.t;
  offers : list Offer.t;
  listings : list Listing.t
}.
End Nft.

(** The result of the [GET_NFT] query. *)
Module GetNftData.
Record t : Type := { nft : Nft.t }.
End GetNftData.

(** ** Instructions and transactions, over a type [K] of public keys *)

Definition Buffer : Type := list Z.

Module AccountMeta.
Record t (K : Type) : Type := {
  pubkey : K;
  isSigner : bool;
  isWritable : bool
}.
End AccountMeta.

Module TransactionInstruction.
Record t (K : Type) : Type := {
  programId : K;
  data : Buffer;
  keys : list (AccountMeta.t K)
}.
End TransactionInstruction.

Module Transaction.
Record t (K : Type) : Type := {
  instructions : list (TransactionInstruction.t K);
  recentBlockhash : option string;
  feePayer : option K;
  signatures : list Buffer
}.

(** [new Transaction()] *)
Definition new (K : Type) : t K :=
  {| instructions := []; recentBlockhash := None; feePayer := None;
     signatures := [] |}.

(** [txt.add(instruction)]: the instruction goes to the end. *)
Definition add (K : Type) (txt : t K) (i : TransactionInstruction.t K) : t K :=
  {| instructions := (instructions txt ++ [i])%list;
     recentBlockhash := recentBlockhash txt;
     feePayer := feePayer txt;
     signatures := signatures txt |}.

(** [txt.recentBlockhash = b] *)
Definition set_recentBlockhash (K : Type) (txt : t K) (b : string) : t K :=
  {| instructions := instructions txt;
     recentBlockhash := Some b;
     feePayer := feePayer txt;
     signatures := signatures txt |}.

(** [txt.feePayer = k] *)
Definition set_feePayer (K : Type) (txt : t K) (k : K) : t K :=
  {| instructions := instructions txt;
     recentBlockhash := recentBlockhash txt;
     feePayer := Some k;
     signatures := signatures txt |}.
End Transaction.

(** ** The account and argument objects handed to the SDK *)

Module PublicBuy.
Record Accounts (K : Type) : Type := {
  wallet : K;
  paymentAccount : K;
  transferAuthority : K;
  treasuryMint : K;
  tokenAccount : K;
  metadata : K;
  escrowPaymentAccount : K;
  authority : K;
  auctionHouse : K;
  auctionHouseFeeAccount : K;
  buyerTradeState : K
}.
Record Args : Type := {
  tradeStateBump : Z;
  escrowPaymentBump : Z;
  buyerPrice : Z;
  tokenSize : Z
}.
End PublicBuy.

Module ExecuteSale.
Record Accounts (K : Type) : Type := {
  buyer : K;
  seller : K;
  tokenAccount : K;
  tokenMint : K;
  metadata : K;
  treasuryMint : K;
  escrowPaymentAccount : K;
  sellerPaymentReceiptAccount : K;
  buyerReceiptTokenAccount : K;
  authority : K;
  auctionHouse : K;
  auctionHouseFeeAccount : K;
  auctionHouseTreasury : K;
  buyerTradeState : K;
  sellerTradeState : K;
  freeTradeState : K;
  programAsSigner : K
}.
Record Args : Type := {
  escrowPaymentBump : Z;
  freeTradeStateBump : Z;
  programAsSignerBump : Z;
  buyerPrice : Z;
  tokenSize : Z
}.
End ExecuteSale.

Module PrintBidReceipt.
Record Accounts (K : Type) : Type := {
  bookkeeper : K;
  receipt : K;
  instruction : K
}.
Record Args : Type := { receiptBump : Z }.
End PrintBidReceipt.

Module PrintPurchaseReceipt.
Record Accounts (K : Type) : Type := {
  bookkeeper : K;
  purchaseReceipt : K;
  bidReceipt : K;
  listingReceipt : K;
  instruction : K
}.
Record Args : Type := { purchaseReceiptBump : Z }.
End PrintPurchaseReceipt.

Module Cancel.
Record Accounts (K : Type) : Type := {
  wallet : K;
  tokenAccount : K;
  tokenMint : K;
  authority : K;
  auctionHouse : K;
  auctionHouseFeeAccount : K;
  tradeState : K
}.
Record Args : Type := {
  buyerPrice : Z;
  tokenSize : Z
}.
End Cancel.

Module CancelListingReceipt.
Record Accounts (K : Type) : Type := {
  receipt : K;
  instruction : K
}.
End CancelListingReceipt.

(** ** The libraries the page imports, as interfaces *)

(** [@solana/web3.js] and [bn.js]. *)
Class Web3 : Type := {
  PublicKey : Type;
  (* [new PublicKey(s)]: throws on a string that is no address *)
  PublicKey_new : string -> Completion PublicKey;
  toBase58 : PublicKey -> string;
  SYSVAR_INSTRUCTIONS_PUBKEY : PublicKey;
  (* [signed.serialize()]: throws when a signature is missing or wrong *)
  serialize : Transaction.t PublicKey -> Completion Buffer;
  (* [price.toNumber()]: throws past the safe integers *)
  toNumber : Z -> Completion Z
}.

(** [AuctionHouseProgram] and [MetadataProgram]: the program id, the
    address derivations and the instruction constructors.  The code of
    the derivations is the SDK's and is not in the sources: each is
    taken here as a function of its arguments that gives an address and
    its bump, as the design says of them (pure and total on keys).  That
    a derivation gives the same result on every call is thereby assumed
    of the SDK, not proved. *)
Class AuctionHouseProgram (W : Web3) : Type := {
  PUBKEY : PublicKey;
  findMetadataAccount : PublicKey -> PublicKey * Z;
  findEscrowPaymentAccountAddress : PublicKey -> PublicKey -> PublicKey * Z;
  findPublicBidTradeStateAddress :
    PublicKey -> PublicKey -> PublicKey -> PublicKey -> Z -> Z -> PublicKey * Z;
  findTradeStateAddress :
    PublicKey -> PublicKey -> PublicKey -> PublicKey -> PublicKey -> Z -> Z ->
    PublicKey * Z;
  findAuctionHouseProgramAsSignerAddress : PublicKey * Z;
  findAssociatedTokenAccountAddress : PublicKey -> PublicKey -> PublicKey * Z;
  findBidReceiptAddress : PublicKey -> PublicKey * Z;
  findPurchaseReceiptAddress : PublicKey -> PublicKey -> PublicKey * Z;
  createPublicBuyInstruction :
    PublicBuy.Accounts PublicKey -> PublicBuy.Args ->
    TransactionInstruction.t PublicKey;
  createExecuteSaleInstruction :
    ExecuteSale.Accounts PublicKey -> ExecuteSale.Args ->
    TransactionInstruction.t PublicKey;
  createCancelInstruction :
    Cancel.Accounts PublicKey -> Cancel.Args ->
    TransactionInstruction.t PublicKey;
  createPrintBidReceiptInstruction :
    PrintBidReceipt.Accounts PublicKey -> PrintBidReceipt.Args ->
    TransactionInstruction.t PublicKey;
  createCancelListingReceiptInstruction :
    CancelListingReceipt.Accounts PublicKey ->
    TransactionInstruction.t PublicKey;
  createPrintPurchaseReceiptInstruction :
    PrintPurchaseReceipt.Accounts PublicKey -> PrintPurchaseReceipt.Args ->
    TransactionInstruction.t PublicKey
}.

(** What [connection.confirmTransaction] resolves with, an
    [RpcResponseAndContext<SignatureResult>]: [value.err] is [null] for
    a transaction that was executed, and the error of the program (here
    its text) for one that was included and rejected by the chain.  The
    call itself throws when the node cannot be reached and when the
    transaction is not seen within the time allowed. *)
Module SignatureResult.
Record t : Type := { err : option string }.
End SignatureResult.

Module Context.
Record t : Type := { slot : Z }.
End Context.

Module RpcResponseAndContext.
Record t (T : Type) : Type := {
  context : Context.t;
  value : T
}.
End RpcResponseAndContext.

Definition SignatureStatus : Type :=
  RpcResponseAndContext.t SignatureResult.t.

(** [useConnection().connection]: what each call of the handlers gets
    back (every method is called at most once in a run). *)
Record Connection : Type := {
  getRecentBlockhash : Completion string;
  sendRawTransaction : Buffer -> Completion string;
  confirmTransaction : string -> string -> Completion SignatureStatus
}.

(** ** The calls a handler makes, in order *)

Inductive FindCall : Type :=
| FindMetadataAccount
| FindEscrowPaymentAccountAddress
| FindPublicBidTradeStateAddress
| FindTradeStateAddress
| FindAuctionHouseProgramAsSignerAddress
| FindAssociatedTokenAccountAddress
| FindBidReceiptAddress
| FindPurchaseReceiptAddress.

Inductive CreateCall : Type :=
| CreatePublicBuyInstruction
| CreateExecuteSaleInstruction
| CreateCancelInstruction
| CreatePrintBidReceiptInstruction
| CreateCancelListingReceiptInstruction
| CreatePrintPurchaseReceiptInstruction.

Inductive ToastKind : Type :=
| ToastDefault
| ToastSuccess
| ToastError.

(** One event per call, with what the call was given and what it gave
    back. *)
Inductive Event (K : Type) : Type :=
| Login
| Find (f : FindCall) (r : K * Z)
| Create (c : CreateCall) (i : TransactionInstruction.t K)
| GetRecentBlockhash (r : Completion string)
| SignTransaction (txt : Transaction.t K) (r : Completion (Transaction.t K))
| Toast (kind : ToastKind) (msg : string)
| SendRawTransaction (raw : Buffer) (r : Completion string)
| ConfirmTransaction (signature commitment : string)
    (r : Completion SignatureStatus)
| Refetch (r : Completion unit).
Arguments Login {K}.
Arguments Find {K} f r.
Arguments Create {K} c i.
Arguments GetRecentBlockhash {K} r.
Arguments Toast {K} kind msg.
Arguments SendRawTransaction {K} raw r.
Arguments ConfirmTransaction {K} signature commitment r.
Arguments Refetch {K} r.

(** ** The monad of the handlers: the calls made so far, and a completion *)

Module Async.
Definition t (K A : Type) : Type := list (Event K) * Completion A.

Definition ret {K A : Type} (a : A) : t K A := ([], Normal a).

Definition bind {K A B : Type} (m : t K A) (f : A -> t K B) : t K B :=
  match m with
  | (tr, Normal a) => let (tr', r) := f a in ((tr ++ tr')%list, r)
  | (tr, Throw e) => (tr, Throw e)
  end.

(** An expression that may throw, with no call. *)
Definition lift {K A : Type} (c : Completion A) : t K A := ([], c).

(** A call and what it gives back. *)
Definition call {K A : Type} (ev : Completion A -> Event K) (c : Completion A)
  : t K A :=
  ([ev c], c).

(** A call that cannot throw. *)
Definition call_ {K A : Type} (ev : A -> Event K) (a : A) : t K A :=
  ([ev a], Normal a).

Definition emit {K : Type} (ev : Event K) : t K unit := ([ev], Normal tt).

(** [try { m } catch (e) { h e }] *)
Definition try_catch {K A : Type} (m : t K A) (h : Error -> t K A) : t K A :=
  match m with
  | (tr, Normal a) => (tr, Normal a)
  | (tr, Throw e) => let (tr', r) := h e in ((tr ++ tr')%list, r)
  end.

(** [xs.map(f)] for an [f] that may throw. *)
Fixpoint mapM {K A B : Type} (f : A -> t K B) (xs : list A) : t K (list B) :=
  match xs with
  | [] => ret []
  | x :: xs' => bind (f x) (fun y => bind (mapM f xs') (fun ys => ret (y :: ys)))
  end.
End Async.

Declare Scope async_scope.
Delimit Scope async_scope with async.
Notation "x <- m ;; k" := (Async.bind m (fun x => k))
  (at level 61, m at next level, right associativity) : async_scope.
Notation "' p <- m ;; k" := (Async.bind m (fun x => match x with p => k end))
  (at level 61, p pattern, m at next level, right associativity) : async_scope.
Notation "m ;; k" := (Async.bind m (fun _ => k))
  (at level 61, right associativity) : async_scope.
Notation "'try' m 'catch' h" := (Async.try_catch m h)
  (at level 61, m at next level, h at next level) : async_scope.

Definition trace {K A : Type} (m : Async.t K A) : list (Event K) := fst m.
Definition completion {K A : Type} (m : Async.t K A) : Completion A := snd m.

(** ** The page component: its props, its hooks and the two handlers *)

Section NftShow.
Context {W : Web3} {AH : AuctionHouseProgram W}.
Local Open Scope async_scope.

Local Abbreviation Tx := (Transaction.t PublicKey).
Local Abbreviation Instruction := (TransactionInstruction.t PublicKey).
Local Abbreviation M := (Async.t PublicKey).

(** The props ([marketplace]) and what [useWallet], [useConnection] and
    [useQuery] give the component. *)
Variable marketplace : Marketplace.t.
Variable publicKey : option PublicKey.
Variable signTransaction : option (Tx -> Completion Tx).
Variable connection : Connection.
Variable data : option GetNftData.t.
Variable refetch : Completion unit.

Definition isMarketplaceAuctionHouse (a : string) : bool :=
  String.eqb (AuctionHouse.address (Marketplace.auctionHouse marketplace)) a.

Definition isOwner : BoolOrNull :=
  or_null
    (equals
       (option_map (fun d => NftOwner.address (Nft.owner (GetNftData.nft d))) data)
       (option_map toBase58 publicKey)).

Definition listing : option Listing.t :=
  find (fun l => isMarketplaceAuctionHouse (Listing.auctionHouse l))
       (match data with
        | Some d => Nft.listings (GetNftData.nft d)
        | None => []
        end).

Definition login : M unit := Async.emit Login.

Definition toast (kind : ToastKind) (msg : string) : M unit :=
  Async.emit (Toast kind msg).

Definition new_PublicKey (s : string) : M PublicKey :=
  Async.lift (PublicKey_new s).

Definition awaitFind (f : FindCall) (r : PublicKey * Z) : M (PublicKey * Z) :=
  Async.call_ (Find f) r.

Definition create (c : CreateCall) (i : Instruction) : M Instruction :=
  Async.call_ (Create c) i.

(** The account of a creator, as the buy handler adds it to execute-sale. *)
Definition creatorAccount (creator : NftCreator.t) : M (AccountMeta.t PublicKey) :=
  pubkey <- new_PublicKey (NftCreator.address creator) ;;
  Async.ret {| AccountMeta.pubkey := pubkey;
               AccountMeta.isSigner := false;
               AccountMeta.isWritable := true |}.

(** Lines 269-436 of [buyNftTransaction]: from the addresses to the
    transaction [txt] with its instructions. *)
Definition buyTransaction (publicKey : PublicKey) (listing : Listing.t)
    (data : GetNftData.t) : M Tx :=
  let ah := Marketplace.auctionHouse marketplace in
  let nft := GetNftData.nft data in
  auctionHouse <- new_PublicKey (AuctionHouse.address ah) ;;
  authority <- new_PublicKey (AuctionHouse.authority ah) ;;
  auctionHouseFeeAccount <- new_PublicKey (AuctionHouse.auctionHouseFeeAccount ah) ;;
  treasuryMint <- new_PublicKey (AuctionHouse.treasuryMint ah) ;;
  seller <- new_PublicKey (Listing.seller listing) ;;
  tokenMint <- new_PublicKey (Nft.mintAddress nft) ;;
  auctionHouseTreasury <- new_PublicKey (AuctionHouse.auctionHouseTreasury ah) ;;
  listingReceipt <- new_PublicKey (Listing.address listing) ;;
  sellerPaymentReceiptAccount <- new_PublicKey (Listing.seller listing) ;;
  sellerTradeState <- new_PublicKey (Listing.tradeState listing) ;;
  buyerPrice <- Async.lift (toNumber (Listing.price listing)) ;;
  tokenAccount <-
    new_PublicKey (NftOwner.associatedTokenAccountAddress (Nft.owner nft)) ;;
  '(metadata, _) <- awaitFind FindMetadataAccount (findMetadataAccount tokenMint) ;;
  '(escrowPaymentAccount, escrowPaymentBump) <-
    awaitFind FindEscrowPaymentAccountAddress
      (findEscrowPaymentAccountAddress auctionHouse publicKey) ;;
  '(buyerTradeState, tradeStateBump) <-
    awaitFind FindPublicBidTradeStateAddress
      (findPublicBidTradeStateAddress
         publicKey auctionHouse treasuryMint tokenMint buyerPrice 1) ;;
  '(freeTradeState, freeTradeStateBump) <-
    awaitFind FindTradeStateAddress
      (findTradeStateAddress
         seller auctionHouse tokenAccount treasuryMint tokenMint 0 1) ;;
  '(programAsSigner, programAsSignerBump) <-
    awaitFind FindAuctionHouseProgramAsSignerAddress
      findAuctionHouseProgramAsSignerAddress ;;
  '(buyerReceiptTokenAccount, _) <-
    awaitFind FindAssociatedTokenAccountAddress
      (findAssociatedTokenAccountAddress tokenMint publicKey) ;;
  '(bidReceipt, bidReceiptBump) <-
    awaitFind FindBidReceiptAddress (findBidReceiptAddress buyerTradeState) ;;
  '(purchaseReceipt, purchaseReceiptBump) <-
    awaitFind FindPurchaseReceiptAddress
      (findPurchaseReceiptAddress sellerTradeState buyerTradeState) ;;
  let publicBuyInstructionAccounts :=
    {| PublicBuy.wallet := publicKey;
       PublicBuy.paymentAccount := publicKey;
       PublicBuy.transferAuthority := publicKey;
       PublicBuy.treasuryMint := treasuryMint;
       PublicBuy.tokenAccount := tokenAccount;
       PublicBuy.metadata := metadata;
       PublicBuy.escrowPaymentAccount := escrowPaymentAccount;
       PublicBuy.authority := authority;
       PublicBuy.auctionHouse := auctionHouse;
       PublicBuy.auctionHouseFeeAccount := auctionHouseFeeAccount;
       PublicBuy.buyerTradeState := buyerTradeState |} in
  let publicBuyInstructionArgs :=
    {| PublicBuy.tradeStateBump := tradeStateBump;
       PublicBuy.escrowPaymentBump := escrowPaymentBump;
       PublicBuy.buyerPrice := buyerPrice;
       PublicBuy.tokenSize := 1 |} in
  let executeSaleInstructionAccounts :=
    {| ExecuteSale.buyer := publicKey;
       ExecuteSale.seller := seller;
       ExecuteSale.tokenAccount := tokenAccount;
       ExecuteSale.tokenMint := tokenMint;
       ExecuteSale.metadata := metadata;
       ExecuteSale.treasuryMint := treasuryMint;
       ExecuteSale.escrowPaymentAccount := escrowPaymentAccount;
       ExecuteSale.sellerPaymentReceiptAccount := sellerPaymentReceiptAccount;
       ExecuteSale.buyerReceiptTokenAccount := buyerReceiptTokenAccount;
       ExecuteSale.authority := authority;
       ExecuteSale.auctionHouse := auctionHouse;
       ExecuteSale.auctionHouseFeeAccount := auctionHouseFeeAccount;
       ExecuteSale.auctionHouseTreasury := auctionHouseTreasury;
       ExecuteSale.buyerTradeState := buyerTradeState;
       ExecuteSale.sellerTradeState := sellerTradeState;
       ExecuteSale.freeTradeState := freeTradeState;
       ExecuteSale.programAsSigner := programAsSigner |} in
  let executeSaleInstructionArgs :=
    {| ExecuteSale.escrowPaymentBump := escrowPaymentBump;
       ExecuteSale.freeTradeStateBump := freeTradeStateBump;
       ExecuteSale.programAsSignerBump := programAsSignerBump;
       ExecuteSale.buyerPrice := buyerPrice;
       ExecuteSale.tokenSize := 1 |} in
  let printBidReceiptAccounts :=
    {| PrintBidReceipt.bookkeeper := publicKey;
       PrintBidReceipt.receipt := bidReceipt;
       PrintBidReceipt.instruction := SYSVAR_INSTRUCTIONS_PUBKEY |} in
  let printBidReceiptArgs :=
    {| PrintBidReceipt.receiptBump := bidReceiptBump |} in
  let printPurchaseReceiptAccounts :=
    {| PrintPurchaseReceipt.bookkeeper := publicKey;
       PrintPurchaseReceipt.purchaseReceipt := purchaseReceipt;
       PrintPurchaseReceipt.bidReceipt := bidReceipt;
       PrintPurchaseReceipt.listingReceipt := listingReceipt;
       PrintPurchaseReceipt.instruction := SYSVAR_INSTRUCTIONS_PUBKEY |} in
  let printPurchaseReceiptArgs :=
    {| PrintPurchaseReceipt.purchaseReceiptBump := purchaseReceiptBump |} in
  publicBuyInstruction <-
    create CreatePublicBuyInstruction
      (createPublicBuyInstruction
         publicBuyInstructionAccounts publicBuyInstructionArgs) ;;
  printBidReceiptInstruction <-
    create CreatePrintBidReceiptInstruction
      (createPrintBidReceiptInstruction
         printBidReceiptAccounts printBidReceiptArgs) ;;
  executeSaleInstruction <-
    create CreateExecuteSaleInstruction
      (createExecuteSaleInstruction
         executeSaleInstructionAccounts executeSaleInstructionArgs) ;;
  printPurchaseReceiptInstruction <-
    create CreatePrintPurchaseReceiptInstruction
      (createPrintPurchaseReceiptInstruction
         printPurchaseReceiptAccounts printPurchaseReceiptArgs) ;;
  let txt := Transaction.new PublicKey in
  let txt := Transaction.add txt publicBuyInstruction in
  let txt := Transaction.add txt printBidReceiptInstruction in
  creatorAccounts <- Async.mapM creatorAccount (Nft.creators nft) ;;
  let txt :=
    Transaction.add txt
      {| TransactionInstruction.programId := PUBKEY;
         TransactionInstruction.data :=
           TransactionInstruction.data executeSaleInstruction;
         TransactionInstruction.keys :=
           (TransactionInstruction.keys executeSaleInstruction
              ++ creatorAccounts)%list |} in
  let txt := Transaction.add txt printPurchaseReceiptInstruction in
  Async.ret txt.

(** Lines 477-529 of [cancelListingTransaction]. *)
Definition cancelTransaction (publicKey : PublicKey) (listing : Listing.t)
    (data : GetNftData.t) : M Tx :=
  let ah := Marketplace.auctionHouse marketplace in
  let nft := GetNftData.nft data in
  auctionHouse <- new_PublicKey (AuctionHouse.address ah) ;;
  authority <- new_PublicKey (AuctionHouse.authority ah) ;;
  auctionHouseFeeAccount <- new_PublicKey (AuctionHouse.auctionHouseFeeAccount ah) ;;
  tokenMint <- new_PublicKey (Nft.mintAddress nft) ;;
  treasuryMint <- new_PublicKey (AuctionHouse.treasuryMint ah) ;;
  receipt <- new_PublicKey (Listing.address listing) ;;
  tokenAccount <-
    new_PublicKey (NftOwner.associatedTokenAccountAddress (Nft.owner nft)) ;;
  buyerPrice <- Async.lift (toNumber (Listing.price listing)) ;;
  '(tradeState, _) <-
    awaitFind FindTradeStateAddress
      (findTradeStateAddress
         publicKey auctionHouse tokenAccount treasuryMint tokenMint buyerPrice 1) ;;
  let cancelInstructionAccounts :=
    {| Cancel.wallet := publicKey;
       Cancel.tokenAccount := tokenAccount;
       Cancel.tokenMint := tokenMint;
       Cancel.authority := authority;
       Cancel.auctionHouse := auctionHouse;
       Cancel.auctionHouseFeeAccount := auctionHouseFeeAccount;
       Cancel.tradeState := tradeState |} in
  let cancelInstructionArgs :=
    {| Cancel.buyerPrice := buyerPrice;
       Cancel.tokenSize := 1 |} in
  let cancelListingReceiptAccounts :=
    {| CancelListingReceipt.receipt := receipt;
       CancelListingReceipt.instruction := SYSVAR_INSTRUCTIONS_PUBKEY |} in
  cancelInstruction <-
    create CreateCancelInstruction
      (createCancelInstruction cancelInstructionAccounts cancelInstructionArgs) ;;
  cancelListingReceiptInstruction <-
    create CreateCancelListingReceiptInstruction
      (createCancelListingReceiptInstruction cancelListingReceiptAccounts) ;;
  let txt := Transaction.new PublicKey in
  let txt := Transaction.add txt cancelInstruction in
  let txt := Transaction.add txt cancelListingReceiptInstruction in
  Async.ret txt.

(** Lines 438-464 of [buyNftTransaction], and the same text at lines
    531-557 of [cancelListingTransaction]: blockhash and fee payer, then
    the two [try] blocks. *)
Definition signAndSend (publicKey : PublicKey)
    (signTransaction : Tx -> Completion Tx) (txt : Tx) : M unit :=
  blockhash <- Async.call GetRecentBlockhash (getRecentBlockhash connection) ;;
  let txt := Transaction.set_recentBlockhash txt blockhash in
  let txt := Transaction.set_feePayer txt publicKey in
  signed <-
    (try (signed <- Async.call (SignTransaction txt) (signTransaction txt) ;;
          Async.ret (Some signed))
     catch (fun e => toast ToastError (message e) ;; Async.ret None)) ;;
  match signed with
  | None => Async.ret tt
  | Some signed =>
      try (toast ToastDefault "Sending the transaction to Solana." ;;
           raw <- Async.lift (serialize signed) ;;
           signature <-
             Async.call (SendRawTransaction raw)
               (sendRawTransaction connection raw) ;;
           Async.call (ConfirmTransaction signature "confirmed")
             (confirmTransaction connection signature "confirmed") ;;
           Async.call Refetch refetch ;;
           toast ToastSuccess "The transaction was confirmed.")
      catch (fun e => toast ToastError (message e))
  end.

Definition buyNftTransaction : M unit :=
  match publicKey, signTransaction with
  | Some publicKey, Some signTransaction =>
      match listing, truthy isOwner, data with
      | Some listing, false, Some data =>
          txt <- buyTransaction publicKey listing data ;;
          signAndSend publicKey signTransaction txt
      | _, _, _ => Async.ret tt
      end
  | _, _ => login ;; Async.ret tt
  end.

Definition cancelListingTransaction : M unit :=
  match publicKey, signTransaction with
  | Some publicKey, Some signTransaction =>
      match listing, truthy isOwner, data with
      | Some listing, true, Some data =>
          txt <- cancelTransaction publicKey listing data ;;
          signAndSend publicKey signTransaction txt
      | _, _, _ => Async.ret tt
      end
  | _, _ => login ;; Async.ret tt
  end.
End NftShow.

(** ** Reading a run: projections of the calls made *)

Section Transcript.
Context {W : Web3}.

Local Abbreviation Ev := (Event PublicKey).

(** A call to the SDK (a derivation or an instruction constructor). *)
Definition is_sdk_call (ev : Ev) : bool :=
  match ev with
  | Find _ _ | Create _ _ => true
  | _ => false
  end.

Definition is_refetch (ev : Ev) : bool :=
  match ev with
  | Refetch _ => true
  | _ => false
  end.

(** How many times the snapshot was fetched again. *)
Definition refetch_calls (tr : list Ev) : nat :=
  List.length (filter is_refetch tr).

(** [confirmTransaction] was called and returned, whatever it returned:
    the handlers await it and drop the result. *)
Definition confirmed (tr : list Ev) : bool :=
  existsb (fun ev => match ev with
                     | ConfirmTransaction _ _ (Normal _) => true
                     | _ => false
                     end) tr.

(** The notifications shown to the user, in order. *)
Definition toasts (tr : list Ev) : list (ToastKind * string) :=
  flat_map (fun ev => match ev with
                      | Toast k m => [(k, m)]
                      | _ => []
                      end) tr.

(** The derivations made, in order, with their results. *)
Definition finds (tr : list Ev) : list (FindCall * (PublicKey * Z)) :=
  flat_map (fun ev => match ev with
                      | Find f r => [(f, r)]
                      | _ => []
                      end) tr.

(** The instructions the SDK built, in order. *)
Definition creates (tr : list Ev)
  : list (CreateCall * TransactionInstruction.t PublicKey) :=
  flat_map (fun ev => match ev with
                      | Create c i => [(c, i)]
                      | _ => []
                      end) tr.

(** The transactions handed to the wallet. *)
Definition signing_requests (tr : list Ev) : list (Transaction.t PublicKey) :=
  flat_map (fun ev => match ev with
                      | SignTransaction txt _ => [txt]
                      | _ => []
                      end) tr.

(** The three places where the pipeline can fail, with the error thrown.
    Serializing the signed transaction belongs to the submission. *)
Definition signing_failed (tr : list Ev) (e : Error) : Prop :=
  exists txt, In (SignTransaction txt (Throw e)) tr.

Definition submission_failed (tr : list Ev) (e : Error) : Prop :=
  (exists raw, In (SendRawTransaction raw (Throw e)) tr) \/
  (exists txt signed,
      In (SignTransaction txt (Normal signed)) tr /\
      serialize signed = Throw e).

Definition confirmation_failed (tr : list Ev) (e : Error) : Prop :=
  exists signature commitment,
    In (ConfirmTransaction signature commitment (Throw e)) tr.

(** The confirmation returned, and what it returned reports a
    transaction that the chain included and rejected: [value.err] is not
    [null]. *)
Definition rejected_on_chain (tr : list Ev) (err : string) : Prop :=
  exists signature commitment status,
    In (ConfirmTransaction signature commitment (Normal status)) tr /\
    SignatureResult.err (RpcResponseAndContext.value status) = Some err.

Definition is_normal {A : Type} (c : Completion A) : bool :=
  match c with
  | Normal _ => true
  | Throw _ => false
  end.

(** The string is an address: [new PublicKey] accepts it. *)
Definition is_address (s : string) : bool := is_normal (PublicKey_new s).

(** Every address the buy handler parses is one, and the price is a safe
    integer. *)
Definition buy_inputs_ok (marketplace : Marketplace.t) (listing : Listing.t)
    (data : GetNftData.t) : bool :=
  let ah := Marketplace.auctionHouse marketplace in
  let nft := GetNftData.nft data in
  forallb is_address
    [AuctionHouse.address ah; AuctionHouse.authority ah;
     AuctionHouse.auctionHouseFeeAccount ah; AuctionHouse.treasuryMint ah;
     Listing.seller listing; Nft.mintAddress nft;
     AuctionHouse.auctionHouseTreasury ah; Listing.address listing;
     Listing.tradeState listing;
     NftOwner.associatedTokenAccountAddress (Nft.owner nft)]
  && is_normal (toNumber (Listing.price listing))
  && forallb (fun c => is_address (NftCreator.address c)) (Nft.creators nft).

(** The same for the cancel handler. *)
Definition cancel_inputs_ok (marketplace : Marketplace.t) (listing : Listing.t)
    (data : GetNftData.t) : bool :=
  let ah := Marketplace.auctionHouse marketplace in
  let nft := GetNftData.nft data in
  forallb is_address
    [AuctionHouse.address ah; AuctionHouse.authority ah;
     AuctionHouse.auctionHouseFeeAccount ah; Nft.mintAddress nft;
     AuctionHouse.treasuryMint ah; Listing.address listing;
     NftOwner.associatedTokenAccountAddress (Nft.owner nft)]
  && is_normal (toNumber (Listing.price listing)).

(** The account is the one the buy handler makes for the creator. *)
Definition is_creator_account (creator : NftCreator.t)
    (account : AccountMeta.t PublicKey) : Prop :=
  PublicKey_new (NftCreator.address creator)
    = Normal (AccountMeta.pubkey account) /\
  AccountMeta.isSigner account = false /\
  AccountMeta.isWritable account = true.

(** The listing with another stored trade state. *)
Definition with_tradeState (l : Listing.t) (tradeState : string)
    (tradeStateBump : Z) : Listing.t :=
  {| Listing.address := Listing.address l;
     Listing.auctionHouse := Listing.auctionHouse l;
     Listing.bookkeeper := Listing.bookkeeper l;
     Listing.seller := Listing.seller l;
     Listing.metadata := Listing.metadata l;
     Listing.purchaseReceipt := Listing.purchaseReceipt l;
     Listing.price := Listing.price l;
     Listing.tokenSize := Listing.tokenSize l;
     Listing.bump := Listing.bump l;
     Listing.tradeState := tradeState;
     Listing.tradeStateBump := tradeStateBump;
     Listing.createdAt := Listing.createdAt l;
     Listing.canceledAt := Listing.canceledAt l |}.
End Transcript.

(** The shapes a run of a handler can have: it stops after calls to the
    SDK only (a guard, or a throw while building), it asks for a login,
    or it builds and enters the signing pipeline. *)
Section Shapes.
Context {W : Web3} {AH : AuctionHouseProgram W}.
Variable connection : Connection.
Variable refetch : Completion unit.

Inductive run_shape : list (Event PublicKey) -> Prop :=
| shape_stopped (pre : list (Event PublicKey)) :
    forallb is_sdk_call pre = true -> run_shape pre
| shape_login : run_shape [Login]
| shape_pipeline (pre : list (Event PublicKey)) (publicKey : PublicKey)
    (signTransaction : Transaction.t PublicKey -> Completion (Transaction.t PublicKey))
    (txt : Transaction.t PublicKey) :
    forallb is_sdk_call pre = true ->
    run_shape (pre ++ trace (signAndSend connection refetch publicKey
                               signTransaction txt))%list.

(** What the settlement step does to a run: the snapshot is fetched again
    exactly when the confirmation returned; the fetch is the last call
    but one, before a success notification if it returned and an error
    notification with its message if it threw; an error thrown by the
    signing, the submission or the confirmation leaves the snapshot
    alone and ends the run with an error notification carrying its
    message. *)
Definition settles (tr : list (Event PublicKey)) : Prop :=
  refetch_calls tr = (if confirmed tr then 1 else 0)%nat /\
  (confirmed tr = true ->
   exists pre k m,
     tr = (pre ++ [Refetch refetch; Toast k m])%list /\
     refetch_calls pre = 0%nat /\
     (k, m) = match refetch with
              | Normal _ => (ToastSuccess, "The transaction was confirmed.")
              | Throw e => (ToastError, message e)
              end) /\
  (forall e,
      signing_failed tr e \/ submission_failed tr e \/ confirmation_failed tr e ->
      refetch_calls tr = 0%nat /\
      exists pre, tr = (pre ++ [Toast ToastError (message e)])%list).

(** How an error thrown at each of the three places reaches the user. *)
Definition surfaces (tr : list (Event PublicKey)) : Prop :=
  (forall e, signing_failed tr e -> toasts tr = [(ToastError, message e)]) /\
  (forall e, submission_failed tr e ->
             toasts tr = [(ToastDefault, "Sending the transaction to Solana.");
                          (ToastError, message e)]) /\
  (forall e, confirmation_failed tr e ->
             toasts tr = [(ToastDefault, "Sending the transaction to Solana.");
                          (ToastError, message e)]).

(** The handlers do not read what the confirmation returned.  When it
    reports that the chain rejected the transaction, the run goes on as
    for a transaction that was executed: the snapshot is fetched again,
    once, and the user is shown the notice that the transaction is being
    sent and then the success (or the error of the fetch, if it
    throws); no error of the transaction is shown. *)
Definition overlooks_rejection (tr : list (Event PublicKey)) : Prop :=
  forall err,
    rejected_on_chain tr err ->
    confirmed tr = true /\
    refetch_calls tr = 1%nat /\
    toasts tr
    = [(ToastDefault, "Sending the transaction to Solana.");
       match refetch with
       | Normal _ => (ToastSuccess, "The transaction was confirmed.")
       | Throw e => (ToastError, message e)
       end].
End Shapes.

(** The instruction sequences of the two transactions. *)
Section Sequences.
Context {W : Web3} {AH : AuctionHouseProgram W}.

(** public-buy, print-bid-receipt, execute-sale with one more account per
    creator, print-purchase-receipt. *)
Definition is_buy_sequence (creators : list NftCreator.t)
    (instructions : list (TransactionInstruction.t PublicKey)) : Prop :=
  exists a1 r1 a2 r2 a3 r3 a4 r4 accounts,
    Forall2 is_creator_account creators accounts /\
    instructions =
      [createPublicBuyInstruction a1 r1;
       createPrintBidReceiptInstruction a2 r2;
       {| TransactionInstruction.programId := PUBKEY;
          TransactionInstruction.data :=
            TransactionInstruction.data (createExecuteSaleInstruction a3 r3);
          TransactionInstruction.keys :=
            (TransactionInstruction.keys (createExecuteSaleInstruction a3 r3)
               ++ accounts)%list |};
       createPrintPurchaseReceiptInstruction a4 r4].

(** cancel, cancel-listing-receipt. *)
Definition is_cancel_sequence
    (instructions : list (TransactionInstruction.t PublicKey)) : Prop :=
  exists a1 r1 a2,
    instructions =
      [createCancelInstruction a1 r1;
       createCancelListingReceiptInstruction a2].
End Sequences.

(** ** A stand-in for the libraries, to run the handlers on examples

    Keys are symbolic: an address given as text, or the result of a
    derivation from its seeds (so that distinct seeds give distinct
    addresses). *)

Module Mock.
#[warnings="-register-all"]
Inductive Key : Type :=
| Address (s : string)
| Derived (f : FindCall) (keys : list Key) (numbers : list Z).

Definition base58_alphabet : list Ascii.ascii :=
  list_ascii_of_string
    "123456789ABCDEFGHJKLMNPQRSTUVWXYZabcdefghijkmnopqrstuvwxyz".

Fixpoint base58_digit (c : Ascii.ascii) (alphabet : list Ascii.ascii) (i : Z)
  : option Z :=
  match alphabet with
  | [] => None
  | a :: alphabet =>
      if Ascii.eqb c a then Some i else base58_digit c alphabet (i + 1)
  end.

(** The number a base58 text writes, most significant digit first. *)
Fixpoint base58_number (cs : list Ascii.ascii) (acc : Z) : option Z :=
  match cs with
  | [] => Some acc
  | c :: cs =>
      match base58_digit c base58_alphabet 0 with
      | Some d => base58_number cs (58 * acc + d)
      | None => None
      end
  end.

Fixpoint leading_ones (cs : list Ascii.ascii) : nat :=
  match cs with
  | c :: cs => if Ascii.eqb c "1"%char then S (leading_ones cs) else 0%nat
  | [] => 0%nat
  end.

Definition byte_length (n : Z) : Z :=
  if n =? 0 then 0 else Z.log2 n / 8 + 1.

(** How many bytes [bs58.decode] gives: a zero byte for each leading
    [1], then the bytes of the number; nothing for a text with a
    character outside the alphabet. *)
Definition decoded_length (s : string) : option Z :=
  let cs := list_ascii_of_string s in
  match base58_number (skipn (leading_ones cs) cs) 0 with
  | Some n => Some (Z.of_nat (leading_ones cs) + byte_length n)
  | None => None
  end.

(** [new PublicKey(text)]: the text is decoded, and a key has 32
    bytes. *)
Definition parse (s : string) : Completion Key :=
  match decoded_length s with
  | Some 32 => Normal (Address s)
  | Some _ => Throw {| message := "Invalid public key input" |}
  | None => Throw {| message := "Non-base58 character" |}
  end.

Definition text (k : Key) : string :=
  match k with
  | Address s => s
  | Derived _ _ _ => "derived"
  end.

Definition serialize_signed (txt : Transaction.t Key) : Completion Buffer :=
  match Transaction.signatures txt with
  | [] => Throw {| message := "Signature verification failed" |}
  | sig :: _ =>
      Normal (Z.of_nat (List.length (Transaction.instructions txt)) :: sig)
  end.

Definition safe_number (n : Z) : Completion Z :=
  if Z.abs n <? 2 ^ 53 then Normal n
  else Throw {| message := "Number can only safely store up to 53 bits" |}.

#[export] Instance web3 : Web3 := {|
  PublicKey := Key;
  PublicKey_new := parse;
  toBase58 := text;
  SYSVAR_INSTRUCTIONS_PUBKEY :=
    Address "Sysvar1nstructions1111111111111111111111111";
  serialize := serialize_signed;
  toNumber := safe_number
|}.

Definition program_id : Key := Address "hausS13jsjafwWwGqZTUQRmWyvyxn9EQpqMwV1PBBmk".

Definition account (k : Key) (isSigner isWritable : bool) : AccountMeta.t Key :=
  {| AccountMeta.pubkey := k;
     AccountMeta.isSigner := isSigner;
     AccountMeta.isWritable := isWritable |}.

Definition instruction (tag : Z) (args : list Z) (keys : list (AccountMeta.t Key))
  : TransactionInstruction.t Key :=
  {| TransactionInstruction.programId := program_id;
     TransactionInstruction.data := tag :: args;
     TransactionInstruction.keys := keys |}.

Definition publicBuy (a : PublicBuy.Accounts Key)
    (r : PublicBuy.Args) : TransactionInstruction.t Key :=
  instruction 169
    [PublicBuy.tradeStateBump r; PublicBuy.escrowPaymentBump r;
     PublicBuy.buyerPrice r; PublicBuy.tokenSize r]
    [account (PublicBuy.wallet a) true false;
     account (PublicBuy.paymentAccount a) false true;
     account (PublicBuy.transferAuthority a) false false;
     account (PublicBuy.treasuryMint a) false false;
     account (PublicBuy.tokenAccount a) false false;
     account (PublicBuy.metadata a) false false;
     account (PublicBuy.escrowPaymentAccount a) false true;
     account (PublicBuy.authority a) false false;
     account (PublicBuy.auctionHouse a) false false;
     account (PublicBuy.auctionHouseFeeAccount a) false true;
     account (PublicBuy.buyerTradeState a) false true].

Definition executeSale (a : ExecuteSale.Accounts Key)
    (r : ExecuteSale.Args) : TransactionInstruction.t Key :=
  instruction 37
    [ExecuteSale.escrowPaymentBump r; ExecuteSale.freeTradeStateBump r;
     ExecuteSale.programAsSignerBump r; ExecuteSale.buyerPrice r;
     ExecuteSale.tokenSize r]
    [account (ExecuteSale.buyer a) false true;
     account (ExecuteSale.seller a) false true;
     account (ExecuteSale.tokenAccount a) false true;
     account (ExecuteSale.tokenMint a) false false;
     account (ExecuteSale.metadata a) false false;
     account (ExecuteSale.treasuryMint a) false false;
     account (ExecuteSale.escrowPaymentAccount a) false true;
     account (ExecuteSale.sellerPaymentReceiptAccount a) false true;
     account (ExecuteSale.buyerReceiptTokenAccount a) false true;
     account (ExecuteSale.authority a) false false;
     account (ExecuteSale.auctionHouse a) false false;
     account (ExecuteSale.auctionHouseFeeAccount a) false true;
     account (ExecuteSale.auctionHouseTreasury a) false true;
     account (ExecuteSale.buyerTradeState a) false true;
     account (ExecuteSale.sellerTradeState a) false true;
     account (ExecuteSale.freeTradeState a) false true;
     account (ExecuteSale.programAsSigner a) false false].

Definition cancel (a : Cancel.Accounts Key) (r : Cancel.Args)
  : TransactionInstruction.t Key :=
  instruction 232
    [Cancel.buyerPrice r; Cancel.tokenSize r]
    [account (Cancel.wallet a) false true;
     account (Cancel.tokenAccount a) false true;
     account (Cancel.tokenMint a) false false;
     account (Cancel.authority a) false false;
     account (Cancel.auctionHouse a) false false;
     account (Cancel.auctionHouseFeeAccount a) false true;
     account (Cancel.tradeState a) false true].

Definition printBidReceipt (a : PrintBidReceipt.Accounts Key)
    (r : PrintBidReceipt.Args) : TransactionInstruction.t Key :=
  instruction 94
    [PrintBidReceipt.receiptBump r]
    [account (PrintBidReceipt.receipt a) false true;
     account (PrintBidReceipt.bookkeeper a) true true;
     account (PrintBidReceipt.instruction a) false false].

Definition cancelListingReceipt
    (a : CancelListingReceipt.Accounts Key) : TransactionInstruction.t Key :=
  instruction 171 []
    [account (CancelListingReceipt.receipt a) false true;
     account (CancelListingReceipt.instruction a) false false].

Definition printPurchaseReceipt
    (a : PrintPurchaseReceipt.Accounts Key) (r : PrintPurchaseReceipt.Args)
  : TransactionInstruction.t Key :=
  instruction 227
    [PrintPurchaseReceipt.purchaseReceiptBump r]
    [account (PrintPurchaseReceipt.purchaseReceipt a) false true;
     account (PrintPurchaseReceipt.listingReceipt a) false true;
     account (PrintPurchaseReceipt.bidReceipt a) false true;
     account (PrintPurchaseReceipt.bookkeeper a) true true;
     account (PrintPurchaseReceipt.instruction a) false false].

#[export] Instance program : AuctionHouseProgram web3 := {|
  PUBKEY := program_id;
  findMetadataAccount mint := (Derived FindMetadataAccount [mint] [], 255);
  findEscrowPaymentAccountAddress auctionHouse wallet :=
    (Derived FindEscrowPaymentAccountAddress [auctionHouse; wallet] [], 254);
  findPublicBidTradeStateAddress wallet auctionHouse treasuryMint tokenMint
      price tokenSize :=
    (Derived FindPublicBidTradeStateAddress
       [wallet; auctionHouse; treasuryMint; tokenMint] [price; tokenSize], 253);
  findTradeStateAddress wallet auctionHouse tokenAccount treasuryMint tokenMint
      price tokenSize :=
    (Derived FindTradeStateAddress
       [wallet; auctionHouse; tokenAccount; treasuryMint; tokenMint]
       [price; tokenSize], 252);
  findAuctionHouseProgramAsSignerAddress :=
    (Derived FindAuctionHouseProgramAsSignerAddress [] [], 251);
  findAssociatedTokenAccountAddress mint owner :=
    (Derived FindAssociatedTokenAccountAddress [mint; owner] [], 250);
  findBidReceiptAddress tradeState :=
    (Derived FindBidReceiptAddress [tradeState] [], 249);
  findPurchaseReceiptAddress sellerTradeState buyerTradeState :=
    (Derived FindPurchaseReceiptAddress [sellerTradeState; buyerTradeState] [],
     248);
  createPublicBuyInstruction := publicBuy;
  createExecuteSaleInstruction := executeSale;
  createCancelInstruction := cancel;
  createPrintBidReceiptInstruction := printBidReceipt;
  createCancelListingReceiptInstruction := cancelListingReceipt;
  createPrintPurchaseReceiptInstruction := printPurchaseReceipt
|}.
End Mock.

(** ** Example snapshots, wallets and networks *)

Module Scenario.
Import Mock.

Definition auctionHouse : AuctionHouse.t :=
  {| AuctionHouse.address := "AuctionHouse11111111111111111111111111111111";
     AuctionHouse.treasuryMint := "So11111111111111111111111111111111111111112";
     AuctionHouse.auctionHouseTreasury :=
       "Treasury11111111111111111111111111111111111";
     AuctionHouse.treasuryWithdrawalDestination :=
       "Authority11111111111111111111111111111111111";
     AuctionHouse.feeWithdrawalDestination :=
       "Authority11111111111111111111111111111111111";
     AuctionHouse.authority := "Authority11111111111111111111111111111111111";
     AuctionHouse.creator := "Authority11111111111111111111111111111111111";
     AuctionHouse.auctionHouseFeeAccount :=
       "FeeAccount1111111111111111111111111111111111";
     AuctionHouse.bump := 255;
     AuctionHouse.treasuryBump := 254;
     AuctionHouse.feePayerBump := 253;
     AuctionHouse.sellerFeeBasisPoints := 200;
     AuctionHouse.requiresSignOff := false;
     AuctionHouse.canChangeSalePrice := false |}.

Definition marketplace : Marketplace.t :=
  {| Marketplace.subdomain := "market";
     Marketplace.name := "Market";
     Marketplace.ownerAddress := "Authority11111111111111111111111111111111111";
     Marketplace.auctionHouse := auctionHouse |}.

Definition seller : string := "SeLLer1111111111111111111111111111111111111".
Definition buyer : string := "Buyer111111111111111111111111111111111111111".
Definition newHolder : string := "NewHoLder1111111111111111111111111111111111".

(** A listing by [seller] at 2.5 SOL on the marketplace's auction house. *)
Definition sellerListing : Listing.t :=
  {| Listing.address := "Receipt111111111111111111111111111111111111";
     Listing.auctionHouse := "AuctionHouse11111111111111111111111111111111";
     Listing.bookkeeper := seller;
     Listing.seller := seller;
     Listing.metadata := "Mint111111111111111111111111111111111111111";
     Listing.purchaseReceipt := None;
     Listing.price := 2500000000;
     Listing.tokenSize := 1;
     Listing.bump := 255;
     Listing.tradeState := "TradeState111111111111111111111111111111111";
     Listing.tradeStateBump := 254;
     Listing.createdAt := "2022-03-01T00:00:00Z";
     Listing.canceledAt := None |}.

Definition nftOwnedBy (owner : string) (listings : list Listing.t) : Nft.t :=
  {| Nft.name := "Token";
     Nft.address := "Mint111111111111111111111111111111111111111";
     Nft.mintAddress := "Mint111111111111111111111111111111111111111";
     Nft.owner :=
       {| NftOwner.address := owner;
          NftOwner.associatedTokenAccountAddress :=
            "TokenAccount1111111111111111111111111111111" |};
     Nft.creators :=
       [ {| NftCreator.address := "CreatorA111111111111111111111111111111111111" |};
         {| NftCreator.address := "CreatorB111111111111111111111111111111111111" |} ];
     Nft.offers := [];
     Nft.listings := listings |}.

(** The seller owns the token and has listed it. *)
Definition listed : GetNftData.t :=
  {| GetNftData.nft := nftOwnedBy seller [sellerListing] |}.

(** The token has moved to [newHolder]; the seller's listing is still
    reported. *)
Definition moved : GetNftData.t :=
  {| GetNftData.nft := nftOwnedBy newHolder [sellerListing] |}.

(** The token is not listed. *)
Definition unlisted : GetNftData.t :=
  {| GetNftData.nft := nftOwnedBy seller [] |}.

(** A wallet that signs, and one whose user rejects. *)
Definition signs (txt : Transaction.t Key) : Completion (Transaction.t Key) :=
  Normal {| Transaction.instructions := Transaction.instructions txt;
            Transaction.recentBlockhash := Transaction.recentBlockhash txt;
            Transaction.feePayer := Transaction.feePayer txt;
            Transaction.signatures := [[7; 7; 7]] |}.

Definition rejects (txt : Transaction.t Key) : Completion (Transaction.t Key) :=
  Throw {| message := "User rejected the request." |}.

Definition network (send : Completion string)
    (confirm : Completion SignatureStatus) : Connection :=
  {| getRecentBlockhash := Normal "EETubP5AKHgjPAhzPAFcb8BAY1hMH639CWCFTqi3hq1k";
     sendRawTransaction := fun _ => send;
     confirmTransaction := fun _ _ => confirm |}.

(** The transaction was executed, and it was included and rejected. *)
Definition executed : SignatureStatus :=
  {| RpcResponseAndContext.context := {| Context.slot := 120000000 |};
     RpcResponseAndContext.value := {| SignatureResult.err := None |} |}.

Definition rejected : SignatureStatus :=
  {| RpcResponseAndContext.context := {| Context.slot := 120000000 |};
     RpcResponseAndContext.value :=
       {| SignatureResult.err := Some "InstructionError: [2, Custom: 6003]" |} |}.

Definition healthy : Connection :=
  network (Normal "5VERv8NMvzbJMEkV8xnrLkEaWRt") (Normal executed).

Definition unreachable : Error := {| message := "Failed to fetch" |}.

(** The network refuses the transaction. *)
Definition refusing : Connection :=
  network (Throw unreachable) (Normal executed).

(** The network takes the transaction and the confirmation fails. *)
Definition unconfirming : Connection :=
  network (Normal "5VERv8NMvzbJMEkV8xnrLkEaWRt") (Throw unreachable).

(** The network takes the transaction, and the chain includes it and
    rejects it: the confirmation returns, with the error. *)
Definition rejecting : Connection :=
  network (Normal "5VERv8NMvzbJMEkV8xnrLkEaWRt") (Normal rejected).

Definition buy (publicKey : option Key)
    (signTransaction : option (Transaction.t Key -> Completion (Transaction.t Key)))
    (connection : Connection) (data : option GetNftData.t)
    (refetch : Completion unit) : Async.t Key unit :=
  @buyNftTransaction web3 program marketplace publicKey signTransaction
    connection data refetch.

Definition cancelListing (publicKey : option Key)
    (signTransaction : option (Transaction.t Key -> Completion (Transaction.t Key)))
    (connection : Connection) (data : option GetNftData.t)
    (refetch : Completion unit) : Async.t Key unit :=
  @cancelListingTransaction web3 program marketplace publicKey signTransaction
    connection data refetch.
End Scenario.

(** ** The rest of the page: the server-side props and what is rendered *)

(** *** Ramda functions the page uses, on the values it gives them *)

(** [isNil]: the value is [null] or [undefined]. *)
Definition isNil {A : Type} (x : option A) : bool :=
  match x with
  | None => true
  | Some _ => false
  end.

(** [isNil] on [isOwner], which is [true] or [null]. *)
Definition isNilOwner (v : BoolOrNull) : bool :=
  match v with
  | JsNull => true
  | JsBool _ => false
  end.

(** An object or [undefined] in a condition. *)
Definition defined {A : Type} (x : option A) : bool := negb (isNil x).

Definition isEmpty {A : Type} (l : list A) : bool :=
  match l with
  | [] => true
  | _ :: _ => false
  end.

Definition includes (x : string) (l : list string) : bool :=
  existsb (String.eqb x) l.

(** [uniq]: the first occurrence of each element, in order. *)
Fixpoint uniqFrom (seen l : list string) : list string :=
  match l with
  | [] => []
  | x :: l' =>
      if includes x seen then uniqFrom seen l'
      else x :: uniqFrom (x :: seen) l'
  end.

Definition uniq (l : list string) : list string := uniqFrom [] l.

(** [intersection(list1, list2)]: the elements of [list2] that are in
    [list1], each once. *)
Definition intersection (list1 list2 : list string) : list string :=
  uniq (filter (fun x => includes x list1) list2).

(** [gt(a, b)] is [a > b]. *)
Definition gt (a b : nat) : bool := Nat.ltb b a.

(** [pipe(length, partialRight(gt, [1]))] *)
Definition moreThanOne {A : Type} (l : list A) : bool := gt (List.length l) 1.

(** *** [getServerSideProps] *)

Module StoreCreator.
Record t : Type := {
  creatorAddress : string;
  storeConfigAddress : string
}.
End StoreCreator.

(** The marketplace of the [GetNftPage] query: the fields the handlers
    read, and the others the query selects. *)
Module MarketplacePage.
Record t : Type := {
  marketplace : Marketplace.t;
  description : string;
  logoUrl : string;
  bannerUrl : string;
  creators : list StoreCreator.t
}.
End MarketplacePage.

(** The token of the [GetNftPage] query. *)
Module NftPage.
Record t : Type := {
  address : string;
  mintAddress : string;
  image : string;
  name : string;
  description : string;
  creators : list NftCreator.t
}.
End NftPage.

Module GetNftPage.
Record t : Type := {
  marketplace : option MarketplacePage.t;
  nft : option NftPage.t
}.
End GetNftPage.

(** The variables of the query. *)
Module GetNftPageVariables.
Record t : Type := {
  subdomain : option string;
  address : option string
}.
End GetNftPageVariables.

(** What [getServerSideProps] returns: [{ notFound: true }] or
    [{ props: { marketplace, nft } }]. *)
Inductive ServerSideResult : Type :=
| NotFound
| Props (marketplace : option MarketplacePage.t) (nft : option NftPage.t).

(** [a || b] on strings that may be missing: the empty string is falsy. *)
Definition or_string (a b : option string) : option string :=
  match a with
  | Some s => if String.eqb s "" then b else Some s
  | None => b
  end.

(** Lines 135-211.  [SUBDOMAIN] is the environment's
    [MARKETPLACE_SUBDOMAIN], [header] the request's
    [x-holaplex-subdomain], [address] the address of the route, and
    [query] the client, which may throw. *)
Definition getServerSideProps (SUBDOMAIN header address : option string)
    (query : GetNftPageVariables.t -> Completion GetNftPage.t)
  : Completion ServerSideResult :=
  let subdomain := header in
  match query {| GetNftPageVariables.subdomain := or_string subdomain SUBDOMAIN;
                 GetNftPageVariables.address := address |} with
  | Throw e => Throw e
  | Normal response =>
      let marketplace := GetNftPage.marketplace response in
      let nft := GetNftPage.nft response in
      let nftCreatorAddresses :=
        map NftCreator.address
            (match nft with
             | Some n => NftPage.creators n
             | None => []
             end) in
      let marketplaceCreatorAddresses :=
        map StoreCreator.creatorAddress
            (match marketplace with
             | Some m => MarketplacePage.creators m
             | None => []
             end) in
      let notAllowed :=
        isEmpty (intersection marketplaceCreatorAddresses nftCreatorAddresses) in
      if existsb (fun nil => nil) [isNil marketplace; isNil nft] || notAllowed
      then Normal NotFound
      else Normal (Props marketplace nft)
  end.

(** *** What the component renders *)

(** The activities of the snapshot. *)
Module Activity.
Record t : Type := {
  address : string;
  metadata : string;
  auctionHouse : string;
  price : Z;
  createdAt : string;
  wallets : list string;
  activityType : string
}.
End Activity.

(** The forms and links of the action bar. *)
Inductive ActionElement : Type :=
| BuyNowForm
| MakeOfferLink
| SellNftLink
| CancelListingForm.

(** The forms of a row of the offers. *)
Inductive OfferForm : Type :=
| CancelOfferForm
| AcceptOfferForm.

(** A row of the offers: the offer, the columns of its grid, and its
    last cell with its forms, when it has one. *)
Record OfferRow : Type := {
  row_offer : Offer.t;
  row_columns : nat;
  row_forms : option (list OfferForm)
}.

Inductive OffersBody : Type :=
| OffersSkeleton
| OfferRows (rows : list OfferRow).

(** The offers: the notice that there are none, or the table with the
    columns of its header, whether the header has its last, empty label,
    and the body. *)
Inductive OffersSection : Type :=
| NoOffersFound
| OffersTable (columns : nat) (lastLabel : bool) (body : OffersBody).

(** A row of the activities: its label, whether it has the arrow of two
    wallets, and the wallets it links to ([a.wallets[i]], which is
    [undefined] past the end). *)
Record ActivityRow : Type := {
  activity_label : string;
  activity_arrow : bool;
  activity_links : list (option string)
}.

(** Lines 978-1045: a row of the activities. *)
Definition activityRow (a : Activity.t) : ActivityRow :=
  let hasWallets := moreThanOne (Activity.wallets a) in
  {| activity_label :=
       if String.eqb (Activity.activityType a) "purchase" then "Sold"
       else "Listed";
     activity_arrow := hasWallets;
     activity_links :=
       (nth_error (Activity.wallets a) 0
          :: (if hasWallets then [nth_error (Activity.wallets a) 1] else []))%list
  |}.

Section NftShowView.
Context {W : Web3}.

Variable marketplace : Marketplace.t.
Variable publicKey : option PublicKey.
Variable data : option GetNftData.t.
Variable loading : bool.

(** Lines 246-248. *)
Definition offers : list Offer.t :=
  filter (fun o => isMarketplaceAuctionHouse marketplace (Offer.auctionHouse o))
         (match data with
          | Some d => Nft.offers (GetNftData.nft d)
          | None => []
          end).

(** Lines 249-251. *)
Definition offer : option Offer.t :=
  find (fun o => equals (option_map toBase58 publicKey) (Some (Offer.buyer o)))
       (match data with
        | Some d => Nft.offers (GetNftData.nft d)
        | None => []
        end).

(** Lines 749-800: the elements of the action bar, in order. *)
Definition actions : list ActionElement :=
  let listing := listing marketplace data in
  let isOwner := isOwner publicKey data in
  ((if defined listing && negb (truthy isOwner) then [BuyNowForm] else [])
     ++ (if negb (truthy isOwner) && negb (defined offer) then [MakeOfferLink]
         else [])
     ++ (if truthy isOwner && negb (defined listing) then [SellNftLink] else [])
     ++ (if defined listing && truthy isOwner then [CancelListingForm] else []))%list.

(** [[offer, isOwner]] under [isNil]. *)
Definition offerAndOwnerNil : list bool :=
  [isNil offer; isNilOwner (isOwner publicKey data)].

(** Lines 870-874 and 896-900: [grid-cols-3] or [grid-cols-4]. *)
Definition gridColumns : nat :=
  if forallb (fun nil => nil) offerAndOwnerNil then 3%nat else 4%nat.

(** Lines 891-942: a row of the offers. *)
Definition offerRow (o : Offer.t) : OfferRow :=
  let isOwner := isOwner publicKey data in
  {| row_offer := o;
     row_columns := gridColumns;
     row_forms :=
       if defined offer || truthy isOwner
       then Some ((if equals (Some (Offer.buyer o)) (option_map toBase58 publicKey)
                   then [CancelOfferForm] else [])
                    ++ (if truthy isOwner then [AcceptOfferForm] else []))%list
       else None |}.

(** Lines 854-946: the offers. *)
Definition offersSection : OffersSection :=
  if Nat.eqb (List.length offers) 0 && negb loading then NoOffersFound
  else OffersTable gridColumns
         (existsb negb offerAndOwnerNil)
         (if loading then OffersSkeleton else OfferRows (map offerRow offers)).
End NftShowView.

(** A visit of the page by someone who has made an offer. *)
Module Visit.
Import Mock.

Definition offerBy (buyer auctionHouse : string) (price : Z) : Offer.t :=
  {| Offer.address := "Receipt111111111111111111111111111111111111";
     Offer.tradeState := "TradeState111111111111111111111111111111111";
     Offer.price := price;
     Offer.buyer := buyer;
     Offer.createdAt := "2022-03-02T00:00:00Z";
     Offer.auctionHouse := auctionHouse |}.

(** The listed token with an offer of the buyer on the marketplace's
    auction house and one of the new holder on another. *)
Definition withOffers : GetNftData.t :=
  {| GetNftData.nft :=
       {| Nft.name := "Token";
          Nft.address := "Mint111111111111111111111111111111111111111";
          Nft.mintAddress := "Mint111111111111111111111111111111111111111";
          Nft.owner := Nft.owner (GetNftData.nft Scenario.listed);
          Nft.creators := Nft.creators (GetNftData.nft Scenario.listed);
          Nft.offers :=
            [offerBy Scenario.newHolder
               "Authority11111111111111111111111111111111111" 1000000000;
             offerBy Scenario.buyer
               "AuctionHouse11111111111111111111111111111111" 2000000000];
          Nft.listings := [Scenario.sellerListing] |} |}.

(** A listing that differs from the seller's in the fields the handlers
    do not read. *)
Definition relisted : Listing.t :=
  {| Listing.address := Listing.address Scenario.sellerListing;
     Listing.auctionHouse := "Authority11111111111111111111111111111111111";
     Listing.bookkeeper := Scenario.buyer;
     Listing.seller := Listing.seller Scenario.sellerListing;
     Listing.metadata := "";
     Listing.purchaseReceipt := Some "Receipt111111111111111111111111111111111111";
     Listing.price := Listing.price Scenario.sellerListing;
     Listing.tokenSize := 5;
     Listing.bump := 0;
     Listing.tradeState := Listing.tradeState Scenario.sellerListing;
     Listing.tradeStateBump := 0;
     Listing.createdAt := "";
     Listing.canceledAt := Some "2022-03-03T00:00:00Z" |}.

Definition store : MarketplacePage.t :=
  {| MarketplacePage.marketplace := Scenario.marketplace;
     MarketplacePage.description := "A market";
     MarketplacePage.logoUrl := "/logo.png";
     MarketplacePage.bannerUrl := "/banner.png";
     MarketplacePage.creators :=
       [ {| StoreCreator.creatorAddress :=
              "CreatorB111111111111111111111111111111111111";
            StoreCreator.storeConfigAddress :=
              "Authority11111111111111111111111111111111111" |} ] |}.

Definition token : NftPage.t :=
  {| NftPage.address := "Mint111111111111111111111111111111111111111";
     NftPage.mintAddress := "Mint111111111111111111111111111111111111111";
     NftPage.image := "/token.png";
     NftPage.name := "Token";
     NftPage.description := "A token";
     NftPage.creators := Nft.creators (GetNftData.nft Scenario.listed) |}.

Definition client (variables : GetNftPageVariables.t)
  : Completion GetNftPage.t :=
  match GetNftPageVariables.subdomain variables with
  | Some "market" =>
      Normal {| GetNftPage.marketplace := Some store;
                GetNftPage.nft := Some token |}
  | _ => Normal {| GetNftPage.marketplace := None; GetNftPage.nft := None |}
  end.
End Visit.

(** *** The calls of a run to the wallet, the network and the user *)

Section Flow.
Context {W : Web3}.

(** The calls of a run other than those to the SDK, in order. *)
Definition pipeline (tr : list (Event PublicKey)) : list (Event PublicKey) :=
  filter (fun ev => negb (is_sdk_call ev)) tr.

(** What the requests for a blockhash returned. *)
Definition blockhash_requests (tr : list (Event PublicKey))
  : list (Completion string) :=
  flat_map (fun ev => match ev with
                      | GetRecentBlockhash r => [r]
                      | _ => []
                      end) tr.

(** The raw transactions sent. *)
Definition send_requests (tr : list (Event PublicKey)) : list Buffer :=
  flat_map (fun ev => match ev with
                      | SendRawTransaction raw _ => [raw]
                      | _ => []
                      end) tr.

(** The signatures whose confirmation was awaited, with the commitment. *)
Definition confirm_requests (tr : list (Event PublicKey))
  : list (string * string) :=
  flat_map (fun ev => match ev with
                      | ConfirmTransaction signature commitment _ =>
                          [(signature, commitment)]
                      | _ => []
                      end) tr.

(** The built transaction with the blockhash and the fee payer. *)
Definition stamped (txt : Transaction.t PublicKey) (blockhash : string)
    (publicKey : PublicKey) : Transaction.t PublicKey :=
  Transaction.set_feePayer (Transaction.set_recentBlockhash txt blockhash)
    publicKey.

Variable connection : Connection.
Variable refetch : Completion unit.

(** The runs of the pipeline on a built transaction: where it stops,
    the calls it has made and how it completes. *)
Inductive pipeline_run (publicKey : PublicKey)
    (signTransaction :
       Transaction.t PublicKey -> Completion (Transaction.t PublicKey))
    (txt : Transaction.t PublicKey)
  : list (Event PublicKey) -> Completion unit -> Prop :=
| run_without_blockhash (e : Error) :
    getRecentBlockhash connection = Throw e ->
    pipeline_run publicKey signTransaction txt
      [GetRecentBlockhash (Throw e)] (Throw e)
| run_not_signed (b : string) (e : Error) :
    getRecentBlockhash connection = Normal b ->
    signTransaction (stamped txt b publicKey) = Throw e ->
    pipeline_run publicKey signTransaction txt
      [GetRecentBlockhash (Normal b);
       SignTransaction (stamped txt b publicKey) (Throw e);
       Toast ToastError (message e)]
      (Normal tt)
| run_not_serialized (b : string) (signed : Transaction.t PublicKey)
    (e : Error) :
    getRecentBlockhash connection = Normal b ->
    signTransaction (stamped txt b publicKey) = Normal signed ->
    serialize signed = Throw e ->
    pipeline_run publicKey signTransaction txt
      [GetRecentBlockhash (Normal b);
       SignTransaction (stamped txt b publicKey) (Normal signed);
       Toast ToastDefault "Sending the transaction to Solana.";
       Toast ToastError (message e)]
      (Normal tt)
| run_not_sent (b : string) (signed : Transaction.t PublicKey) (raw : Buffer)
    (e : Error) :
    getRecentBlockhash connection = Normal b ->
    signTransaction (stamped txt b publicKey) = Normal signed ->
    serialize signed = Normal raw ->
    sendRawTransaction connection raw = Throw e ->
    pipeline_run publicKey signTransaction txt
      [GetRecentBlockhash (Normal b);
       SignTransaction (stamped txt b publicKey) (Normal signed);
       Toast ToastDefault "Sending the transaction to Solana.";
       SendRawTransaction raw (Throw e);
       Toast ToastError (message e)]
      (Normal tt)
| run_not_confirmed (b : string) (signed : Transaction.t PublicKey)
    (raw : Buffer) (signature : string) (e : Error) :
    getRecentBlockhash connection = Normal b ->
    signTransaction (stamped txt b publicKey) = Normal signed ->
    serialize signed = Normal raw ->
    sendRawTransaction connection raw = Normal signature ->
    confirmTransaction connection signature "confirmed" = Throw e ->
    pipeline_run publicKey signTransaction txt
      [GetRecentBlockhash (Normal b);
       SignTransaction (stamped txt b publicKey) (Normal signed);
       Toast ToastDefault "Sending the transaction to Solana.";
       SendRawTransaction raw (Normal signature);
       ConfirmTransaction signature "confirmed" (Throw e);
       Toast ToastError (message e)]
      (Normal tt)
| run_not_refetched (b : string) (signed : Transaction.t PublicKey)
    (raw : Buffer) (signature : string) (status : SignatureStatus)
    (e : Error) :
    getRecentBlockhash connection = Normal b ->
    signTransaction (stamped txt b publicKey) = Normal signed ->
    serialize signed = Normal raw ->
    sendRawTransaction connection raw = Normal signature ->
    confirmTransaction connection signature "confirmed" = Normal status ->
    refetch = Throw e ->
    pipeline_run publicKey signTransaction txt
      [GetRecentBlockhash (Normal b);
       SignTransaction (stamped txt b publicKey) (Normal signed);
       Toast ToastDefault "Sending the transaction to Solana.";
       SendRawTransaction raw (Normal signature);
       ConfirmTransaction signature "confirmed" (Normal status);
       Refetch (Throw e);
       Toast ToastError (message e)]
      (Normal tt)
| run_settled (b : string) (signed : Transaction.t PublicKey)
    (raw : Buffer) (signature : string) (status : SignatureStatus) :
    getRecentBlockhash connection = Normal b ->
    signTransaction (stamped txt b publicKey) = Normal signed ->
    serialize signed = Normal raw ->
    sendRawTransaction connection raw = Normal signature ->
    confirmTransaction connection signature "confirmed" = Normal status ->
    refetch = Normal tt ->
    pipeline_run publicKey signTransaction txt
      [GetRecentBlockhash (Normal b);
       SignTransaction (stamped txt b publicKey) (Normal signed);
       Toast ToastDefault "Sending the transaction to Solana.";
       SendRawTransaction raw (Normal signature);
       ConfirmTransaction signature "confirmed" (Normal status);
       Refetch (Normal tt);
       Toast ToastSuccess "The transaction was confirmed."]
      (Normal tt).

(** The runs of a handler, seen from the wallet, the network and the
    user: a request to log in, nothing (a guard, or a throw while
    building), or a run of the pipeline for the wallet's key. *)
Inductive handler_run (publicKey : option PublicKey)
    (signTransaction :
       option (Transaction.t PublicKey -> Completion (Transaction.t PublicKey)))
  : list (Event PublicKey) -> Completion unit -> Prop :=
| handler_login :
    publicKey = None \/ signTransaction = None ->
    handler_run publicKey signTransaction [Login] (Normal tt)
| handler_stopped (pk : PublicKey) :
    publicKey = Some pk ->
    handler_run publicKey signTransaction [] (Normal tt)
| handler_threw (pk : PublicKey) (e : Error) :
    publicKey = Some pk ->
    handler_run publicKey signTransaction [] (Throw e)
| handler_pipeline (pk : PublicKey)
    (sign : Transaction.t PublicKey -> Completion (Transaction.t PublicKey))
    (txt : Transaction.t PublicKey) (tr : list (Event PublicKey))
    (c : Completion unit) :
    publicKey = Some pk -> signTransaction = Some sign ->
    pipeline_run pk sign txt tr c ->
    handler_run publicKey signTransaction tr c.



(** The notifications of a run: none, an error, the notice that the
    transaction is being sent and then an error, or that notice and
    then the success. *)
Definition notifies (tr : list (Event PublicKey)) : Prop :=
  let sending := (ToastDefault, "Sending the transaction to Solana.") in
  let success := (ToastSuccess, "The transaction was confirmed.") in
  (toasts tr = [] \/
   (exists m, toasts tr = [(ToastError, m)]) \/
   (exists m, toasts tr = [sending; (ToastError, m)]) \/
   toasts tr = [sending; success]) /\
  (In success (toasts tr) <-> confirmed tr = true /\ refetch = Normal tt) /\
  (In sending (toasts tr) <->
   exists txt signed, In (SignTransaction txt (Normal signed)) tr).

(** How a run ends when an error escapes it: before the wallet is
    asked and with no notification, while building or on the request
    for a blockhash. *)
Definition escapes (run : Async.t PublicKey unit) : Prop :=
  completion run = Normal tt \/
  exists e,
    completion run = Throw e /\
    toasts (trace run) = [] /\
    signing_requests (trace run) = [] /\
    (blockhash_requests (trace run) = [Throw e] \/
     forallb is_sdk_call (trace run) = true).
End Flow.

(** * Proofs *)

Unset Implicit Arguments.

Ltac break_match :=
  match goal with
  | |- context [match ?c with _ => _ end] =>
      lazymatch c with
      | context [match _ with _ => _ end] => fail
      | _ => destruct c eqn:?
      end
  end.

Ltac break_match_in H :=
  match type of H with
  | context [match ?c with _ => _ end] =>
      lazymatch c with
      | context [match _ with _ => _ end] => fail
      | _ => destruct c eqn:?
      end
  end.

(** Unfolds the monad under a handler. *)
Ltac run_async :=
  unfold Async.bind, Async.try_catch, Async.call, Async.call_, Async.emit,
    Async.lift, Async.ret.

(** Membership in an explicit list of events. *)
Ltac in_cases :=
  repeat match goal with
         | H : In _ (_ :: _) |- _ => destruct H as [H|H]
         | H : In _ [] |- _ => destruct H
         | H : _ \/ _ |- _ => destruct H as [H|H]
         | H : False |- _ => destruct H
         | H : _ = _ |- _ => discriminate H
         | H : _ = ?x |- _ => is_var x; subst x
         | H : _ = _ |- _ => injection H as ?; subst
         end.

(** The list is some prefix followed by the given last events. *)
Ltac prefix_witness :=
  first
    [ exists nil; reflexivity
    | eexists (cons _ nil); reflexivity
    | eexists (cons _ (cons _ nil)); reflexivity
    | eexists (cons _ (cons _ (cons _ nil))); reflexivity
    | eexists (cons _ (cons _ (cons _ (cons _ nil)))); reflexivity
    | eexists (cons _ (cons _ (cons _ (cons _ (cons _ nil))))); reflexivity
    | eexists (cons _ (cons _ (cons _ (cons _ (cons _ (cons _ nil))))));
      reflexivity ].

(** ** Projections of a run *)

Section Projections.
Context {W : Web3}.
Implicit Types pre tr : list (Event PublicKey).

Lemma refetch_calls_app pre tr :
  refetch_calls (pre ++ tr) = (refetch_calls pre + refetch_calls tr)%nat.
Proof. unfold refetch_calls. rewrite filter_app, length_app. reflexivity. Qed.

Lemma confirmed_app pre tr : confirmed (pre ++ tr) = confirmed pre || confirmed tr.
Proof. apply existsb_app. Qed.

Lemma toasts_app pre tr : toasts (pre ++ tr) = (toasts pre ++ toasts tr)%list.
Proof. apply flat_map_app. Qed.

Lemma creates_app pre tr : creates (pre ++ tr) = (creates pre ++ creates tr)%list.
Proof. apply flat_map_app. Qed.

Lemma finds_app pre tr : finds (pre ++ tr) = (finds pre ++ finds tr)%list.
Proof. apply flat_map_app. Qed.

Lemma signing_requests_app pre tr :
  signing_requests (pre ++ tr)
  = (signing_requests pre ++ signing_requests tr)%list.
Proof. apply flat_map_app. Qed.

Lemma sdk_only_projections pre :
  forallb is_sdk_call pre = true ->
  refetch_calls pre = 0%nat /\ confirmed pre = false /\ toasts pre = [] /\
  signing_requests pre = [].
Proof.
  induction pre as [|ev pre IH]; intros H; [repeat split|].
  cbn in H. apply andb_true_iff in H as [Hev Hpre].
  destruct (IH Hpre) as (Hr & Hc & Ht & Hs).
  unfold refetch_calls in *.
  destruct ev; try discriminate; cbn; auto.
Qed.

Lemma In_after_sdk_calls pre tr ev :
  forallb is_sdk_call pre = true -> is_sdk_call ev = false ->
  In ev (pre ++ tr) -> In ev tr.
Proof.
  intros Hpre Hev Hin. apply in_app_or in Hin as [Hin|Hin]; [|assumption].
  rewrite forallb_forall in Hpre. apply Hpre in Hin. congruence.
Qed.

(** The failures of a run are those of its part after the SDK calls. *)
Lemma failures_after_sdk_calls pre tr e :
  forallb is_sdk_call pre = true ->
  (signing_failed (pre ++ tr) e -> signing_failed tr e) /\
  (submission_failed (pre ++ tr) e -> submission_failed tr e) /\
  (confirmation_failed (pre ++ tr) e -> confirmation_failed tr e).
Proof.
  intros Hpre.
  unfold signing_failed, submission_failed, confirmation_failed.
  repeat split.
  - intros [txt H]. exists txt. eapply In_after_sdk_calls; eauto.
  - intros [[raw H]|(txt & signed & H & Hs)]; [left|right].
    + exists raw. eapply In_after_sdk_calls; eauto.
    + exists txt, signed. split; [|assumption].
      eapply In_after_sdk_calls; eauto.
  - intros (sig & c & H). exists sig, c. eapply In_after_sdk_calls; eauto.
Qed.

(** A run of SDK calls only has no failure of the pipeline. *)
Lemma sdk_only_failures pre e :
  forallb is_sdk_call pre = true ->
  ~ (signing_failed pre e \/ submission_failed pre e \/ confirmation_failed pre e).
Proof.
  intros Hpre H.
  rewrite <- (app_nil_r pre) in H.
  destruct (@failures_after_sdk_calls pre [] e Hpre) as (Hs & Hb & Hc).
  destruct H as [H|[H|H]].
  - apply Hs in H as [? []].
  - apply Hb in H as [[? []]|(? & ? & [] & _)].
  - apply Hc in H as (? & ? & []).
Qed.
End Projections.

(** ** Building the transaction *)

Section Building.
Context {W : Web3} {AH : AuctionHouseProgram W}.
Variable marketplace : Marketplace.t.

Lemma creatorAccount_cases (c : NftCreator.t) :
  (exists k, PublicKey_new (NftCreator.address c) = Normal k /\
             creatorAccount c =
               ([], Normal {| AccountMeta.pubkey := k;
                              AccountMeta.isSigner := false;
                              AccountMeta.isWritable := true |})) \/
  (exists e, PublicKey_new (NftCreator.address c) = Throw e /\
             creatorAccount c = ([], Throw e)).
Proof.
  unfold creatorAccount, new_PublicKey. run_async.
  destruct (PublicKey_new (NftCreator.address c)) as [k|e]; eauto.
Qed.

(** Parsing the creators makes no call. *)
Lemma creatorAccounts_trace (creators : list NftCreator.t) :
  trace (Async.mapM creatorAccount creators) = [].
Proof.
  induction creators as [|c cs IH]; [reflexivity|].
  simpl Async.mapM.
  destruct (creatorAccount_cases c) as [(k & _ & ->)|(e & _ & ->)]; [|reflexivity].
  unfold Async.bind at 1.
  destruct (Async.mapM creatorAccount cs) as [tr [ks|e]];
    cbn in *; subst; reflexivity.
Qed.

(** When it returns, there is one account per creator, in order. *)
Lemma creatorAccounts_normal (creators : list NftCreator.t) tr accounts :
  Async.mapM creatorAccount creators = (tr, Normal accounts) ->
  tr = [] /\ Forall2 is_creator_account creators accounts.
Proof.
  revert tr accounts.
  induction creators as [|c cs IH]; intros tr accounts H.
  - injection H as <- <-. split; constructor.
  - simpl Async.mapM in H.
    destruct (creatorAccount_cases c) as [(k & Hk & Hc)|(e & _ & Hc)];
      rewrite Hc in H; [|discriminate].
    unfold Async.bind at 1 in H.
    destruct (Async.mapM creatorAccount cs) as [tr' [ks|e]] eqn:Hcs;
      [|discriminate].
    destruct (IH _ _ eq_refl) as [-> Hks].
    injection H as <- <-.
    split; [reflexivity|].
    constructor; [|assumption].
    repeat split; assumption.
Qed.

(** It returns when every creator has an address. *)
Lemma creatorAccounts_total (creators : list NftCreator.t) :
  forallb (fun c => is_address (NftCreator.address c)) creators = true ->
  exists accounts, Async.mapM creatorAccount creators = ([], Normal accounts).
Proof.
  induction creators as [|c cs IH]; intros H.
  - exists []. reflexivity.
  - cbn in H. apply andb_true_iff in H as [Hc Hcs].
    destruct (IH Hcs) as [ks Hks].
    unfold is_address in Hc.
    destruct (creatorAccount_cases c) as [(k & Hk & Hc')|(e & He & _)].
    + eexists. simpl Async.mapM. rewrite Hc', Hks. reflexivity.
    + rewrite He in Hc. discriminate.
Qed.

Ltac run_builder :=
  unfold buyTransaction, cancelTransaction, new_PublicKey, awaitFind, create;
  run_async.

(** While building, the buy handler calls the SDK only. *)
Lemma buyTransaction_sdk_calls pk l d :
  forallb is_sdk_call (trace (buyTransaction marketplace pk l d)) = true.
Proof.
  run_builder.
  pose proof (creatorAccounts_trace (Nft.creators (GetNftData.nft d))) as Hc.
  repeat (break_match; cbn in *; subst; try reflexivity).
Qed.

(** The transaction the buy handler builds. *)
Lemma buyTransaction_normal pk l d tr txt :
  buyTransaction marketplace pk l d = (tr, Normal txt) ->
  exists a1 r1 a2 r2 a3 r3 a4 r4 accounts,
    let publicBuy := createPublicBuyInstruction a1 r1 in
    let printBid := createPrintBidReceiptInstruction a2 r2 in
    let executeSale := createExecuteSaleInstruction a3 r3 in
    let printPurchase := createPrintPurchaseReceiptInstruction a4 r4 in
    creates tr =
      [(CreatePublicBuyInstruction, publicBuy);
       (CreatePrintBidReceiptInstruction, printBid);
       (CreateExecuteSaleInstruction, executeSale);
       (CreatePrintPurchaseReceiptInstruction, printPurchase)] /\
    Forall2 is_creator_account (Nft.creators (GetNftData.nft d)) accounts /\
    Transaction.instructions txt =
      [publicBuy; printBid;
       {| TransactionInstruction.programId := PUBKEY;
          TransactionInstruction.data := TransactionInstruction.data executeSale;
          TransactionInstruction.keys :=
            (TransactionInstruction.keys executeSale ++ accounts)%list |};
       printPurchase].
Proof.
  run_builder.
  intros H.
  repeat (break_match_in H; cbn in H; try discriminate H).
  injection H as <- <-.
  match goal with
  | Hc : Async.mapM creatorAccount _ = _ |- _ =>
      apply creatorAccounts_normal in Hc as [-> Hc]
  end.
  do 9 eexists. cbn. repeat split. assumption.
Qed.

(** On well-formed inputs the buy handler does build a transaction. *)
Lemma buyTransaction_total pk l d :
  buy_inputs_ok marketplace l d = true ->
  is_normal (completion (buyTransaction marketplace pk l d)) = true.
Proof.
  unfold buy_inputs_ok, is_address.
  intros H. apply andb_true_iff in H as [H Hc].
  destruct (creatorAccounts_total _ Hc) as [accounts Ha].
  run_builder. rewrite Ha. cbn in H.
  repeat (break_match; cbn in *; try discriminate H; try reflexivity).
  rewrite andb_false_r in H. discriminate H.
Qed.

(** While building, the cancel handler calls the SDK only. *)
Lemma cancelTransaction_sdk_calls pk l d :
  forallb is_sdk_call (trace (cancelTransaction marketplace pk l d)) = true.
Proof.
  run_builder.
  repeat (break_match; cbn in *; subst; try reflexivity).
Qed.

(** The transaction the cancel handler builds. *)
Lemma cancelTransaction_normal pk l d tr txt :
  cancelTransaction marketplace pk l d = (tr, Normal txt) ->
  exists a1 r1 a2,
    let cancel := createCancelInstruction a1 r1 in
    let cancelListingReceipt := createCancelListingReceiptInstruction a2 in
    creates tr =
      [(CreateCancelInstruction, cancel);
       (CreateCancelListingReceiptInstruction, cancelListingReceipt)] /\
    Transaction.instructions txt = [cancel; cancelListingReceipt].
Proof.
  run_builder.
  intros H.
  repeat (break_match_in H; cbn in H; try discriminate H).
  injection H as <- <-.
  do 3 eexists. cbn. split; reflexivity.
Qed.

(** On well-formed inputs the cancel handler does build a transaction. *)
Lemma cancelTransaction_total pk l d :
  cancel_inputs_ok marketplace l d = true ->
  is_normal (completion (cancelTransaction marketplace pk l d)) = true.
Proof.
  unfold cancel_inputs_ok, is_address.
  intros H. run_builder. cbn in H.
  repeat (break_match; cbn in *; try discriminate H; try reflexivity).
Qed.
End Building.

(** ** The signing pipeline *)

Section Pipeline.
Context {W : Web3} {AH : AuctionHouseProgram W}.
Variable connection : Connection.
Variable refetch : Completion unit.
Implicit Types pre tr : list (Event PublicKey).

Ltac run_pipeline :=
  unfold signAndSend, toast; run_async;
  repeat (break_match; cbn in *; subst);
  repeat match goal with
         | H : (_, _) = (_, _) |- _ => injection H as ?; subst
         end;
  try discriminate; cbn.

Ltac failure_cases H :=
  destruct H as [[? H]|[[[? H]|(? & ? & H & ?)]|(? & ? & H)]]; in_cases.

Ltac same_error :=
  try match goal with
      | H1 : ?c = Throw _, H2 : ?c = Throw _ |- _ =>
          rewrite H1 in H2; injection H2 as ?; subst
      end.

Lemma signAndSend_settles publicKey signTransaction txt :
  settles refetch
    (trace (signAndSend connection refetch publicKey signTransaction txt)).
Proof.
  unfold settles. run_pipeline.
  all: split; [reflexivity|].
  all: split.
  all: try (intros H; discriminate H).
  all: try (intros _;
            eexists (cons _ (cons _ (cons _ (cons _ (cons _ nil))))), _, _;
            repeat split).
  all: intros ? H; failure_cases H; try congruence.
  all: same_error.
  all: split; [reflexivity|prefix_witness].
Qed.

Lemma signAndSend_surfaces publicKey signTransaction txt :
  surfaces (trace (signAndSend connection refetch publicKey signTransaction txt)).
Proof.
  unfold surfaces, signing_failed, submission_failed, confirmation_failed.
  split; [|split].
  - intros e [? H]. revert H. run_pipeline.
    all: intros H; in_cases; reflexivity.
  - intros e H. revert H. run_pipeline.
    all: intros [[? H]|(? & ? & H & ?)]; in_cases; same_error;
      try congruence; reflexivity.
  - intros e (? & ? & H). revert H. run_pipeline.
    all: intros H; in_cases; reflexivity.
Qed.

(** The wallet is asked once at most, for the built transaction with a
    blockhash and a fee payer. *)
Lemma signAndSend_requests publicKey signTransaction txt :
  (forall txt',
      In txt' (signing_requests
                 (trace (signAndSend connection refetch publicKey
                           signTransaction txt))) ->
      Transaction.instructions txt' = Transaction.instructions txt) /\
  (is_normal (getRecentBlockhash connection) = true ->
   exists txt',
     signing_requests
       (trace (signAndSend connection refetch publicKey signTransaction txt))
     = [txt']).
Proof.
  run_pipeline.
  all: split; [intros ? H; in_cases; reflexivity|].
  all: try (intros H; discriminate H).
  all: intros _; eexists; reflexivity.
Qed.

(** The pipeline makes no call to the SDK. *)
Lemma signAndSend_no_sdk_calls publicKey signTransaction txt :
  finds (trace (signAndSend connection refetch publicKey signTransaction txt)) = []
  /\
  creates (trace (signAndSend connection refetch publicKey signTransaction txt))
  = [].
Proof. run_pipeline. all: split; reflexivity. Qed.

Lemma settles_sdk_only pre : forallb is_sdk_call pre = true -> settles refetch pre.
Proof.
  intros Hpre.
  destruct (sdk_only_projections pre Hpre) as (Hr & Hc & _).
  unfold settles. rewrite Hr, Hc.
  repeat split; try discriminate.
  all: exfalso; eapply sdk_only_failures; eauto.
Qed.

Lemma settles_after_sdk_calls pre tr :
  forallb is_sdk_call pre = true -> settles refetch tr -> settles refetch (pre ++ tr).
Proof.
  intros Hpre (Hcount & Hconfirmed & Hfailed).
  destruct (sdk_only_projections pre Hpre) as (Hr & Hc & _).
  unfold settles.
  rewrite refetch_calls_app, confirmed_app, Hr, Hc. cbn.
  split; [assumption|]. split.
  - intros H. destruct (Hconfirmed H) as (q & k & m & -> & Hq & Hkm).
    exists (pre ++ q)%list, k, m.
    rewrite refetch_calls_app, Hr, Hq, app_assoc. auto.
  - intros e H.
    destruct (@failures_after_sdk_calls W pre tr e Hpre) as (Hs & Hb & Hf).
    destruct (Hfailed e) as (H0 & q & ->); [tauto|].
    split; [assumption|].
    exists (pre ++ q)%list. rewrite app_assoc. reflexivity.
Qed.

Lemma run_shape_settles tr : run_shape connection refetch tr -> settles refetch tr.
Proof.
  intros [pre Hpre| |pre pk sign txt Hpre].
  - apply settles_sdk_only, Hpre.
  - unfold settles. cbn. repeat split; try discriminate.
    all: exfalso; failure_cases H.
  - apply settles_after_sdk_calls; [assumption|apply signAndSend_settles].
Qed.

Lemma run_shape_surfaces tr : run_shape connection refetch tr -> surfaces tr.
Proof.
  intros [pre Hpre| |pre pk sign txt Hpre].
  - repeat split; intros e H; exfalso; eapply sdk_only_failures; eauto.
  - unfold surfaces, signing_failed, submission_failed, confirmation_failed.
    repeat split.
    + intros ? [? H]; in_cases.
    + intros ? [[? H]|(? & ? & H & ?)]; in_cases.
    + intros ? (? & ? & H); in_cases.
  - destruct (sdk_only_projections pre Hpre) as (_ & _ & Ht & _).
    destruct (signAndSend_surfaces pk sign txt) as (Hs & Hb & Hf).
    unfold surfaces. rewrite toasts_app, Ht. cbn [app].
    repeat split; intros e H;
      destruct (@failures_after_sdk_calls W pre
                  (trace (signAndSend connection refetch pk sign txt)) e Hpre)
        as (Hs' & Hb' & Hf');
      auto.
Qed.

Lemma signAndSend_overlooks publicKey signTransaction txt :
  overlooks_rejection refetch
    (trace (signAndSend connection refetch publicKey signTransaction txt)).
Proof.
  intros err (signature & commitment & status & Hin & Herr). revert Hin.
  run_pipeline.
  all: intros H; in_cases; repeat split.
Qed.

Lemma run_shape_overlooks tr :
  run_shape connection refetch tr -> overlooks_rejection refetch tr.
Proof.
  intros [pre Hpre| |pre pk sign txt Hpre] err
    (signature & commitment & status & Hin & Herr).
  - exfalso. rewrite forallb_forall in Hpre. apply Hpre in Hin.
    discriminate Hin.
  - in_cases.
  - apply In_after_sdk_calls in Hin; [|assumption|reflexivity].
    destruct (sdk_only_projections pre Hpre) as (Hr & Hc & Ht & _).
    destruct (signAndSend_overlooks pk sign txt err) as (H1 & H2 & H3).
    { exists signature, commitment, status. auto. }
    rewrite confirmed_app, refetch_calls_app, toasts_app, Hr, Hc, Ht.
    cbn [orb Nat.add app]. auto.
Qed.
End Pipeline.

(** ** The two handlers *)

Section Handlers.
Context {W : Web3} {AH : AuctionHouseProgram W}.
Variable marketplace : Marketplace.t.
Variable connection : Connection.
Variable refetch : Completion unit.

(** The viewer owns the token of the snapshot. *)
Lemma isOwner_truthy (pk : PublicKey) (d : GetNftData.t) :
  truthy (isOwner (Some pk) (Some d))
  = String.eqb (NftOwner.address (Nft.owner (GetNftData.nft d))) (toBase58 pk).
Proof.
  unfold isOwner, or_null, equals. cbn.
  destruct (String.eqb _ _); reflexivity.
Qed.

(** Past its guards, the buy handler builds and enters the pipeline. *)
Lemma buyNftTransaction_proceeds (pk : PublicKey) (sign : Transaction.t PublicKey -> Completion (Transaction.t PublicKey))
    (d : GetNftData.t) (l : Listing.t) :
  listing marketplace (Some d) = Some l ->
  truthy (isOwner (Some pk) (Some d)) = false ->
  buyNftTransaction marketplace (Some pk) (Some sign) connection (Some d) refetch
  = Async.bind (buyTransaction marketplace pk l d)
               (signAndSend connection refetch pk sign).
Proof.
  intros Hl Ho. unfold buyNftTransaction. rewrite Hl, Ho. reflexivity.
Qed.

Lemma cancelListingTransaction_proceeds (pk : PublicKey)
    (sign : Transaction.t PublicKey -> Completion (Transaction.t PublicKey)) (d : GetNftData.t) (l : Listing.t) :
  listing marketplace (Some d) = Some l ->
  truthy (isOwner (Some pk) (Some d)) = true ->
  cancelListingTransaction marketplace (Some pk) (Some sign) connection
    (Some d) refetch
  = Async.bind (cancelTransaction marketplace pk l d)
               (signAndSend connection refetch pk sign).
Proof.
  intros Hl Ho. unfold cancelListingTransaction. rewrite Hl, Ho. reflexivity.
Qed.

(** Building, then the pipeline: the shape of the run. *)
Lemma build_then_sign_shape (build : Async.t PublicKey (Transaction.t PublicKey)) (pk : PublicKey)
    (sign : Transaction.t PublicKey -> Completion (Transaction.t PublicKey)) :
  forallb is_sdk_call (trace build) = true ->
  run_shape connection refetch
    (trace (Async.bind build (signAndSend connection refetch pk sign))).
Proof.
  destruct build as [tr [txt|e]]; cbn [trace fst]; intros Hsdk.
  - unfold Async.bind.
    destruct (signAndSend connection refetch pk sign txt) as [tr' r] eqn:Hrun.
    cbn [trace fst].
    change tr' with (trace (tr', r)). rewrite <- Hrun.
    apply shape_pipeline, Hsdk.
  - apply shape_stopped, Hsdk.
Qed.

Lemma buyNftTransaction_shape publicKey signTransaction data :
  run_shape connection refetch
    (trace (buyNftTransaction marketplace publicKey signTransaction connection
              data refetch)).
Proof.
  unfold buyNftTransaction.
  destruct publicKey as [pk|], signTransaction as [sign|];
    try apply shape_login.
  destruct (listing marketplace data) as [l|]; [|apply shape_stopped; reflexivity].
  destruct (truthy (isOwner (Some pk) data)); [apply shape_stopped; reflexivity|].
  destruct data as [d|]; [|apply shape_stopped; reflexivity].
  apply build_then_sign_shape, buyTransaction_sdk_calls.
Qed.

Lemma cancelListingTransaction_shape publicKey signTransaction data :
  run_shape connection refetch
    (trace (cancelListingTransaction marketplace publicKey signTransaction
              connection data refetch)).
Proof.
  unfold cancelListingTransaction.
  destruct publicKey as [pk|], signTransaction as [sign|];
    try apply shape_login.
  destruct (listing marketplace data) as [l|]; [|apply shape_stopped; reflexivity].
  destruct (truthy (isOwner (Some pk) data)); [|apply shape_stopped; reflexivity].
  destruct data as [d|]; [|apply shape_stopped; reflexivity].
  apply build_then_sign_shape, cancelTransaction_sdk_calls.
Qed.

(** The transactions a run hands to the wallet are those of its pipeline,
    and they carry the instructions that were built. *)
Lemma build_then_sign_requests (build : Async.t PublicKey (Transaction.t PublicKey)) (pk : PublicKey)
    (sign : Transaction.t PublicKey -> Completion (Transaction.t PublicKey)) :
  forallb is_sdk_call (trace build) = true ->
  let tr := trace (Async.bind build (signAndSend connection refetch pk sign)) in
  (forall txt', In txt' (signing_requests tr) ->
     exists tr0 txt, build = (tr0, Normal txt) /\
       Transaction.instructions txt' = Transaction.instructions txt) /\
  (is_normal (completion build) = true ->
   is_normal (getRecentBlockhash connection) = true ->
   exists txt', signing_requests tr = [txt']).
Proof.
  destruct build as [tr0 [txt|e]]; cbn [trace completion fst snd]; intros Hsdk.
  - destruct (sdk_only_projections _ Hsdk) as (_ & _ & _ & Hreq).
    destruct (signAndSend_requests connection refetch pk sign txt) as [Hin Hex].
    unfold Async.bind.
    destruct (signAndSend connection refetch pk sign txt) as [tr' r].
    cbn [trace fst] in *.
    rewrite signing_requests_app, Hreq. cbn [app].
    split; [|auto].
    intros txt' H. exists tr0, txt. auto.
  - destruct (sdk_only_projections _ Hsdk) as (_ & _ & _ & Hreq).
    unfold Async.bind. cbn [trace fst]. rewrite Hreq.
    split; [intros ? []|discriminate].
Qed.

(** The SDK calls of a run are those of its building. *)
Lemma build_then_sign_sdk_calls (build : Async.t PublicKey (Transaction.t PublicKey)) (pk : PublicKey)
    (sign : Transaction.t PublicKey -> Completion (Transaction.t PublicKey)) :
  let tr := trace (Async.bind build (signAndSend connection refetch pk sign)) in
  finds tr = finds (trace build) /\ creates tr = creates (trace build).
Proof.
  destruct build as [tr0 [txt|e]]; [|split; reflexivity].
  destruct (signAndSend_no_sdk_calls connection refetch pk sign txt) as [Hf Hc].
  unfold Async.bind.
  destruct (signAndSend connection refetch pk sign txt) as [tr' r].
  cbn [trace fst] in *.
  rewrite finds_app, creates_app, Hf, Hc, !app_nil_r. split; reflexivity.
Qed.

(** The derivations of a run are those of its building, whatever the
    wallet and the network do. *)
Lemma buyNftTransaction_finds pk sign data :
  finds (trace (buyNftTransaction marketplace (Some pk) (Some sign) connection
                  data refetch))
  = match listing marketplace data, truthy (isOwner (Some pk) data), data with
    | Some l, false, Some d => finds (trace (buyTransaction marketplace pk l d))
    | _, _, _ => []
    end.
Proof.
  unfold buyNftTransaction.
  destruct (listing marketplace data) as [l|]; [|reflexivity].
  destruct (truthy (isOwner (Some pk) data)); [reflexivity|].
  destruct data as [d|]; [|reflexivity].
  apply (build_then_sign_sdk_calls (buyTransaction marketplace pk l d) pk sign).
Qed.

Lemma cancelListingTransaction_finds pk sign data :
  finds (trace (cancelListingTransaction marketplace (Some pk) (Some sign)
                  connection data refetch))
  = match listing marketplace data, truthy (isOwner (Some pk) data), data with
    | Some l, true, Some d =>
        finds (trace (cancelTransaction marketplace pk l d))
    | _, _, _ => []
    end.
Proof.
  unfold cancelListingTransaction.
  destruct (listing marketplace data) as [l|]; [|reflexivity].
  destruct (truthy (isOwner (Some pk) data)); [|reflexivity].
  destruct data as [d|]; [|reflexivity].
  apply (build_then_sign_sdk_calls (cancelTransaction marketplace pk l d) pk sign).
Qed.

(** A transaction the buy handler hands to the wallet was built by it. *)
Lemma buyNftTransaction_request publicKey signTransaction data txt :
  let tr := trace (buyNftTransaction marketplace publicKey signTransaction
                     connection data refetch) in
  In txt (signing_requests tr) ->
  exists pk d l tr0 txt0,
    publicKey = Some pk /\ data = Some d /\
    buyTransaction marketplace pk l d = (tr0, Normal txt0) /\
    Transaction.instructions txt = Transaction.instructions txt0 /\
    creates tr = creates tr0.
Proof.
  unfold buyNftTransaction.
  destruct publicKey as [pk|], signTransaction as [sign|];
    try (cbn; intros []).
  destruct (listing marketplace data) as [l|]; [|cbn; intros []].
  destruct (truthy (isOwner (Some pk) data)); [cbn; intros []|].
  destruct data as [d|]; [|cbn; intros []].
  intros Hin.
  pose proof (buyTransaction_sdk_calls marketplace pk l d) as Hsdk.
  destruct (@build_then_sign_requests _ pk sign Hsdk) as [Hreq _].
  destruct (Hreq _ Hin) as (tr0 & txt0 & Hb & Hi).
  destruct (build_then_sign_sdk_calls (buyTransaction marketplace pk l d) pk sign)
    as [_ Hc].
  exists pk, d, l, tr0, txt0.
  do 2 (split; [reflexivity|]). do 2 (split; [assumption|]).
  etransitivity; [exact Hc|]. rewrite Hb. reflexivity.
Qed.

(** A transaction the cancel handler hands to the wallet was built by it. *)
Lemma cancelListingTransaction_request publicKey signTransaction data txt :
  let tr := trace (cancelListingTransaction marketplace publicKey
                     signTransaction connection data refetch) in
  In txt (signing_requests tr) ->
  exists pk d l tr0 txt0,
    publicKey = Some pk /\ data = Some d /\
    cancelTransaction marketplace pk l d = (tr0, Normal txt0) /\
    Transaction.instructions txt = Transaction.instructions txt0 /\
    creates tr = creates tr0.
Proof.
  unfold cancelListingTransaction.
  destruct publicKey as [pk|], signTransaction as [sign|];
    try (cbn; intros []).
  destruct (listing marketplace data) as [l|]; [|cbn; intros []].
  destruct (truthy (isOwner (Some pk) data)); [|cbn; intros []].
  destruct data as [d|]; [|cbn; intros []].
  intros Hin.
  pose proof (cancelTransaction_sdk_calls marketplace pk l d) as Hsdk.
  destruct (@build_then_sign_requests _ pk sign Hsdk) as [Hreq _].
  destruct (Hreq _ Hin) as (tr0 & txt0 & Hb & Hi).
  destruct (build_then_sign_sdk_calls (cancelTransaction marketplace pk l d)
              pk sign) as [_ Hc].
  exists pk, d, l, tr0, txt0.
  do 2 (split; [reflexivity|]). do 2 (split; [assumption|]).
  etransitivity; [exact Hc|]. rewrite Hb. reflexivity.
Qed.
End Handlers.

(** ** The scenarios of the design, run *)

(** A buyer buys the token listed at 2,500,000,000: eight derivations,
    four instructions in one transaction, a confirmation, one fetch of
    the snapshot, and the two notifications. *)
Example buy_at_listing_price :
  let run :=
    Scenario.buy (Some (Mock.Address Scenario.buyer)) (Some Scenario.signs)
      Scenario.healthy (Some Scenario.listed) (Normal tt) in
  completion run = Normal tt /\
  map fst (finds (W := Mock.web3) (trace run))
  = [FindMetadataAccount; FindEscrowPaymentAccountAddress;
     FindPublicBidTradeStateAddress; FindTradeStateAddress;
     FindAuctionHouseProgramAsSignerAddress; FindAssociatedTokenAccountAddress;
     FindBidReceiptAddress; FindPurchaseReceiptAddress] /\
  map fst (creates (W := Mock.web3) (trace run))
  = [CreatePublicBuyInstruction; CreatePrintBidReceiptInstruction;
     CreateExecuteSaleInstruction; CreatePrintPurchaseReceiptInstruction] /\
  map (fun txt => map (fun i => hd 0 (TransactionInstruction.data i))
                      (Transaction.instructions txt))
      (signing_requests (W := Mock.web3) (trace run))
  = [[169; 94; 37; 227]] /\
  confirmed (W := Mock.web3) (trace run) = true /\
  refetch_calls (W := Mock.web3) (trace run) = 1%nat /\
  toasts (W := Mock.web3) (trace run)
  = [(ToastDefault, "Sending the transaction to Solana.");
     (ToastSuccess, "The transaction was confirmed.")].
Proof. cbv zeta. repeat split. Qed.

(** The wallet's user rejects the signature: nothing is sent and the
    snapshot is left alone. *)
Example buy_rejected_by_the_user :
  let run :=
    Scenario.buy (Some (Mock.Address Scenario.buyer)) (Some Scenario.rejects)
      Scenario.healthy (Some Scenario.listed) (Normal tt) in
  completion run = Normal tt /\
  refetch_calls (W := Mock.web3) (trace run) = 0%nat /\
  toasts (W := Mock.web3) (trace run)
  = [(ToastError, "User rejected the request.")].
Proof. cbv zeta. repeat split. Qed.

(** The seller cancels their listing: one derivation, two instructions,
    a confirmation. *)
Example cancel_by_the_seller :
  let run :=
    Scenario.cancelListing (Some (Mock.Address Scenario.seller))
      (Some Scenario.signs) Scenario.healthy (Some Scenario.listed)
      (Normal tt) in
  completion run = Normal tt /\
  map fst (creates (W := Mock.web3) (trace run))
  = [CreateCancelInstruction; CreateCancelListingReceiptInstruction] /\
  map (fun txt => map (fun i => hd 0 (TransactionInstruction.data i))
                      (Transaction.instructions txt))
      (signing_requests (W := Mock.web3) (trace run))
  = [[232; 171]] /\
  confirmed (W := Mock.web3) (trace run) = true /\
  refetch_calls (W := Mock.web3) (trace run) = 1%nat.
Proof. cbv zeta. repeat split. Qed.

(** What the stand-in takes for a key: a base58 text of 32 bytes, as
    the wrapped-SOL mint and the system program are; a text of 33 bytes
    and a text with a character outside the alphabet are refused. *)
Example keys_have_32_bytes :
  Mock.decoded_length "So11111111111111111111111111111111111111112" = Some 32 /\
  Mock.decoded_length "11111111111111111111111111111111" = Some 32 /\
  Mock.parse Scenario.seller = Normal (Mock.Address Scenario.seller) /\
  Mock.decoded_length "zzzzzzzzzzzzzzzzzzzzzzzzzzzzzzzzzzzzzzzzzzzz" = Some 33 /\
  Mock.parse "zzzzzzzzzzzzzzzzzzzzzzzzzzzzzzzzzzzzzzzzzzzz"
  = Throw {| message := "Invalid public key input" |} /\
  Mock.parse "So1111111111111111111111111111111111111111O"
  = Throw {| message := "Non-base58 character" |}.
Proof. repeat split; vm_compute; reflexivity. Qed.

(** An address of the snapshot that is no address: the buy handler
    throws while it reads its inputs, before any call. *)
Example buy_with_a_malformed_mint :
  let snapshot :=
    {| GetNftData.nft :=
         {| Nft.name := "Token";
            Nft.address := "Mint111111111111111111111111111111111111111";
            Nft.mintAddress := "not an address";
            Nft.owner := Nft.owner (GetNftData.nft Scenario.listed);
            Nft.creators := [];
            Nft.offers := [];
            Nft.listings := [Scenario.sellerListing] |} |} in
  Scenario.buy (Some (Mock.Address Scenario.buyer)) (Some Scenario.signs)
    Scenario.healthy (Some snapshot) (Normal tt)
  = ([], Throw {| message := "Non-base58 character" |}).
Proof. reflexivity. Qed.

(** * The claims *)

(** C1. Past its guards (wallet connected, listing found, viewer not the
    owner, snapshot loaded) the buy handler assembles its transaction
    with [buyTransaction], and a transaction so assembled has exactly the
    four instructions public-buy, print-bid-receipt, execute-sale,
    print-purchase-receipt, in this order; on well-formed inputs the
    transaction is assembled.  The same holds for the cancel handler
    (viewer the owner) with the two instructions cancel,
    cancel-listing-receipt.  Every transaction that either handler hands
    to the wallet has its sequence, whole and in order. *)
Theorem instruction_order {W : Web3} {AH : AuctionHouseProgram W}
    (marketplace : Marketplace.t) (connection : Connection)
    (refetch : Completion unit) (pk : PublicKey)
    (sign : Transaction.t PublicKey -> Completion (Transaction.t PublicKey))
    (d : GetNftData.t) (l : Listing.t) :
  listing marketplace (Some d) = Some l ->
  (truthy (isOwner (Some pk) (Some d)) = false ->
   buyNftTransaction marketplace (Some pk) (Some sign) connection (Some d) refetch
   = Async.bind (buyTransaction marketplace pk l d)
                (signAndSend connection refetch pk sign) /\
   (forall tr txt,
       buyTransaction marketplace pk l d = (tr, Normal txt) ->
       is_buy_sequence (Nft.creators (GetNftData.nft d))
         (Transaction.instructions txt)) /\
   (buy_inputs_ok marketplace l d = true ->
    exists tr txt, buyTransaction marketplace pk l d = (tr, Normal txt))) /\
  (truthy (isOwner (Some pk) (Some d)) = true ->
   cancelListingTransaction marketplace (Some pk) (Some sign) connection
     (Some d) refetch
   = Async.bind (cancelTransaction marketplace pk l d)
                (signAndSend connection refetch pk sign) /\
   (forall tr txt,
       cancelTransaction marketplace pk l d = (tr, Normal txt) ->
       is_cancel_sequence (Transaction.instructions txt)) /\
   (cancel_inputs_ok marketplace l d = true ->
    exists tr txt, cancelTransaction marketplace pk l d = (tr, Normal txt))) /\
  (forall publicKey signTransaction data txt,
      In txt (signing_requests
                (trace (buyNftTransaction marketplace publicKey signTransaction
                          connection data refetch))) ->
      exists d', data = Some d' /\
        is_buy_sequence (Nft.creators (GetNftData.nft d'))
          (Transaction.instructions txt)) /\
  (forall publicKey signTransaction data txt,
      In txt (signing_requests
                (trace (cancelListingTransaction marketplace publicKey
                          signTransaction connection data refetch))) ->
      is_cancel_sequence (Transaction.instructions txt)).
Proof.
  intros Hl.
  assert (Hbuy : forall pk' l' d' tr txt,
             buyTransaction marketplace pk' l' d' = (tr, Normal txt) ->
             is_buy_sequence (Nft.creators (GetNftData.nft d'))
               (Transaction.instructions txt)).
  { intros pk' l' d' tr txt H.
    destruct (buyTransaction_normal _ _ _ _ _ _ H)
      as (a1 & r1 & a2 & r2 & a3 & r3 & a4 & r4 & accounts & _ & Ha & Hi).
    exists a1, r1, a2, r2, a3, r3, a4, r4, accounts. auto. }
  assert (Hcancel : forall pk' l' d' tr txt,
             cancelTransaction marketplace pk' l' d' = (tr, Normal txt) ->
             is_cancel_sequence (Transaction.instructions txt)).
  { intros pk' l' d' tr txt H.
    destruct (cancelTransaction_normal _ _ _ _ _ _ H) as (a1 & r1 & a2 & _ & Hi).
    exists a1, r1, a2. assumption. }
  repeat split.
  - apply buyNftTransaction_proceeds; assumption.
  - eauto.
  - intros Hok. pose proof (buyTransaction_total marketplace pk l d Hok) as Hn.
    destruct (buyTransaction marketplace pk l d) as [tr [txt|e]];
      [eauto|discriminate].
  - apply cancelListingTransaction_proceeds; assumption.
  - eauto.
  - intros Hok. pose proof (cancelTransaction_total marketplace pk l d Hok) as Hn.
    destruct (cancelTransaction marketplace pk l d) as [tr [txt|e]];
      [eauto|discriminate].
  - intros publicKey signTransaction data txt Hin.
    destruct (buyNftTransaction_request _ _ _ _ _ _ _ Hin)
      as (pk' & d' & l' & tr0 & txt0 & _ & Hd & Hb & Hi & _).
    exists d'. split; [assumption|]. rewrite Hi. eauto.
  - intros publicKey signTransaction data txt Hin.
    destruct (cancelListingTransaction_request _ _ _ _ _ _ _ Hin)
      as (pk' & d' & l' & tr0 & txt0 & _ & Hd & Hb & Hi & _).
    rewrite Hi. eauto.
Qed.

(** The buyer's attempt on the listed token: four instructions reach the
    wallet. *)
Lemma instruction_order_witness :
  listing Scenario.marketplace (Some Scenario.listed)
  = Some Scenario.sellerListing /\
  truthy (isOwner (W := Mock.web3) (Some (Mock.Address Scenario.buyer))
            (Some Scenario.listed)) = false /\
  buy_inputs_ok (W := Mock.web3) Scenario.marketplace Scenario.sellerListing
    Scenario.listed = true /\
  exists tr txt,
    buyTransaction (AH := Mock.program) Scenario.marketplace
      (Mock.Address Scenario.buyer) Scenario.sellerListing Scenario.listed
    = (tr, Normal txt) /\
    List.length (Transaction.instructions txt) = 4%nat.
Proof.
  split; [reflexivity|]. split; [reflexivity|]. split; [reflexivity|].
  destruct (instruction_order (AH := Mock.program) Scenario.marketplace
              Scenario.healthy (Normal tt) (Mock.Address Scenario.buyer)
              Scenario.signs Scenario.listed Scenario.sellerListing eq_refl)
    as [Hbuy _].
  destruct (Hbuy eq_refl) as (_ & Hseq & Hex).
  destruct (Hex eq_refl) as (tr & txt & Hrun).
  exists tr, txt. split; [exact Hrun|].
  destruct (Hseq tr txt Hrun)
    as (a1 & r1 & a2 & r2 & a3 & r3 & a4 & r4 & accounts & _ & Hi).
  rewrite Hi. reflexivity.
Defined.

(** C2. In every transaction the buy handler hands to the wallet, the
    third instruction has the accounts of the execute-sale instruction
    the SDK built, followed by one account per creator of the token, in
    the order of the creators, each a non-signer and writable; its data
    is that of the SDK's instruction; its program id is
    [AuctionHouseProgram.PUBKEY], which is the program id of the SDK's
    instruction, the SDK addressing its execute-sale instructions to
    that program. *)
Theorem execute_sale_accounts {W : Web3} {AH : AuctionHouseProgram W}
    (marketplace : Marketplace.t) (connection : Connection)
    (refetch : Completion unit) (publicKey : option PublicKey)
    (signTransaction :
       option (Transaction.t PublicKey -> Completion (Transaction.t PublicKey)))
    (data : option GetNftData.t) (txt : Transaction.t PublicKey) :
  (forall a r,
      TransactionInstruction.programId (createExecuteSaleInstruction a r)
      = PUBKEY) ->
  let tr := trace (buyNftTransaction marketplace publicKey signTransaction
                     connection data refetch) in
  In txt (signing_requests tr) ->
  exists d publicBuy printBid base printPurchase executeSale accounts,
    data = Some d /\
    creates tr =
      [(CreatePublicBuyInstruction, publicBuy);
       (CreatePrintBidReceiptInstruction, printBid);
       (CreateExecuteSaleInstruction, base);
       (CreatePrintPurchaseReceiptInstruction, printPurchase)] /\
    Transaction.instructions txt
    = [publicBuy; printBid; executeSale; printPurchase] /\
    TransactionInstruction.keys executeSale
    = (TransactionInstruction.keys base ++ accounts)%list /\
    Forall2 is_creator_account (Nft.creators (GetNftData.nft d)) accounts /\
    List.length accounts = List.length (Nft.creators (GetNftData.nft d)) /\
    TransactionInstruction.programId executeSale = PUBKEY /\
    TransactionInstruction.programId executeSale
    = TransactionInstruction.programId base /\
    TransactionInstruction.data executeSale = TransactionInstruction.data base.
Proof.
  intros Hpid tr Hin.
  destruct (buyNftTransaction_request _ _ _ _ _ _ _ Hin)
    as (pk & d & l & tr0 & txt0 & _ & Hd & Hb & Hi & Hc).
  destruct (buyTransaction_normal _ _ _ _ _ _ Hb)
    as (a1 & r1 & a2 & r2 & a3 & r3 & a4 & r4 & accounts & Hcr & Ha & Hi0).
  cbv zeta in Hcr, Hi0.
  exists d. do 6 eexists.
  split; [assumption|].
  split; [subst tr; rewrite Hc; exact Hcr|].
  split; [rewrite Hi; exact Hi0|].
  cbn. repeat split.
  - assumption.
  - symmetry. eapply Forall2_length. eassumption.
  - symmetry. apply Hpid.
Qed.

(** The buyer's attempt on the listed token, whose two creators follow
    the seventeen accounts of the SDK's execute-sale. *)
Lemma execute_sale_accounts_witness :
  (forall a r,
      TransactionInstruction.programId
        (createExecuteSaleInstruction (AuctionHouseProgram := Mock.program) a r)
      = PUBKEY (AuctionHouseProgram := Mock.program)) /\
  exists txt executeSale,
    signing_requests (W := Mock.web3)
      (trace (Scenario.buy (Some (Mock.Address Scenario.buyer))
                (Some Scenario.signs) Scenario.healthy (Some Scenario.listed)
                (Normal tt)))
    = [txt] /\
    nth_error (Transaction.instructions txt) 2 = Some executeSale /\
    List.length (TransactionInstruction.keys executeSale) = 19%nat.
Proof.
  split; [reflexivity|].
  eexists. eexists.
  split; [vm_compute; reflexivity|].
  match goal with
  | |- nth_error (Transaction.instructions ?t) _ = _ /\ _ =>
      assert (Hin : In t (signing_requests (W := Mock.web3)
                            (trace (Scenario.buy
                                      (Some (Mock.Address Scenario.buyer))
                                      (Some Scenario.signs) Scenario.healthy
                                      (Some Scenario.listed) (Normal tt)))))
        by (vm_compute; left; reflexivity);
      destruct (execute_sale_accounts (AH := Mock.program) Scenario.marketplace
                  Scenario.healthy (Normal tt)
                  (Some (Mock.Address Scenario.buyer)) (Some Scenario.signs)
                  (Some Scenario.listed) t (fun _ _ => eq_refl) Hin)
        as (d & pb & bid & base & pr & es & accounts
            & Hd & Hcr & Hi & Hk & Ha & Hlen & _ & Hp & Hdata)
  end.
  injection Hd as <-.
  vm_compute in Hcr. injection Hcr as _ _ <- _.
  injection Hi as _ _ <- _.
  split; [reflexivity|].
  cbn [TransactionInstruction.keys].
  apply (f_equal (@List.length _)) in Hk. rewrite length_app, Hlen in Hk.
  reflexivity.
Defined.

(** C3, as the code has it.  In every run of either handler the snapshot
    is fetched again exactly once when the awaited [confirmTransaction]
    returned, and not at all otherwise; the fetch is followed by the
    success notification when it returns, and by an error notification
    with its message when it throws; when the signing, the submission
    or the confirmation throws, the snapshot is not fetched and the run
    ends with an error notification carrying the message of the error.
    What the confirmation returned is not read: when it reports a
    transaction that the chain rejected, the snapshot is fetched again
    and the success is shown all the same. *)
Theorem settlement {W : Web3} {AH : AuctionHouseProgram W}
    (marketplace : Marketplace.t) (connection : Connection)
    (refetch : Completion unit) (publicKey : option PublicKey)
    (signTransaction :
       option (Transaction.t PublicKey -> Completion (Transaction.t PublicKey)))
    (data : option GetNftData.t) :
  let buy :=
    trace (buyNftTransaction marketplace publicKey signTransaction connection
             data refetch) in
  let cancel :=
    trace (cancelListingTransaction marketplace publicKey signTransaction
             connection data refetch) in
  (settles refetch buy /\ overlooks_rejection refetch buy) /\
  (settles refetch cancel /\ overlooks_rejection refetch cancel).
Proof.
  cbv zeta.
  pose proof (buyNftTransaction_shape marketplace connection refetch publicKey
                signTransaction data) as Hbuy.
  pose proof (cancelListingTransaction_shape marketplace connection refetch
                publicKey signTransaction data) as Hcancel.
  split; split.
  - apply (run_shape_settles connection), Hbuy.
  - apply (run_shape_overlooks connection), Hbuy.
  - apply (run_shape_settles connection), Hcancel.
  - apply (run_shape_overlooks connection), Hcancel.
Qed.

(** C3, as stated, fails in two ways.  The seller cancels and the chain
    rejects the transaction: the confirmation returns with the error,
    and the snapshot is fetched again and the success shown.  The seller
    cancels, the transaction is executed, and fetching the snapshot
    again throws: the snapshot was fetched once and no success
    notification follows, the user sees the error of the fetch. *)
Lemma settlement_does_not_follow_the_outcome :
  let rejected :=
    trace (Scenario.cancelListing (Some (Mock.Address Scenario.seller))
             (Some Scenario.signs) Scenario.rejecting (Some Scenario.listed)
             (Normal tt)) in
  let unfetched :=
    trace (Scenario.cancelListing (Some (Mock.Address Scenario.seller))
             (Some Scenario.signs) Scenario.healthy (Some Scenario.listed)
             (Throw Scenario.unreachable)) in
  (rejected_on_chain (W := Mock.web3) rejected
     "InstructionError: [2, Custom: 6003]" /\
   refetch_calls (W := Mock.web3) rejected = 1%nat /\
   toasts (W := Mock.web3) rejected
   = [(ToastDefault, "Sending the transaction to Solana.");
      (ToastSuccess, "The transaction was confirmed.")]) /\
  (confirmed (W := Mock.web3) unfetched = true /\
   refetch_calls (W := Mock.web3) unfetched = 1%nat /\
   toasts (W := Mock.web3) unfetched
   = [(ToastDefault, "Sending the transaction to Solana.");
      (ToastError, "Failed to fetch")] /\
   ~ In (ToastSuccess, "The transaction was confirmed.")
        (toasts (W := Mock.web3) unfetched)).
Proof.
  cbv zeta. split.
  - split; [|split; reflexivity].
    exists "5VERv8NMvzbJMEkV8xnrLkEaWRt", "confirmed", Scenario.rejected.
    split; [|reflexivity].
    vm_compute. do 7 right. left. reflexivity.
  - repeat split.
    intros H. vm_compute in H. in_cases.
Qed.

(** C8, as the code has it.  In every run of either handler a
    confirmation that throws reaches the user as a failure of the
    submission does: the notification that the transaction is being
    sent, then one error notification with the message of the error.  A
    failure of the signing reaches them as the error notification
    alone.  A confirmation that returns and reports a transaction the
    chain rejected reaches them as no failure at all: after the
    notification that the transaction is being sent they are shown the
    success (or the error of the fetch of the snapshot). *)
Theorem failure_notifications {W : Web3} {AH : AuctionHouseProgram W}
    (marketplace : Marketplace.t) (connection : Connection)
    (refetch : Completion unit) (publicKey : option PublicKey)
    (signTransaction :
       option (Transaction.t PublicKey -> Completion (Transaction.t PublicKey)))
    (data : option GetNftData.t) :
  let buy :=
    trace (buyNftTransaction marketplace publicKey signTransaction connection
             data refetch) in
  let cancel :=
    trace (cancelListingTransaction marketplace publicKey signTransaction
             connection data refetch) in
  (surfaces buy /\ overlooks_rejection refetch buy) /\
  (surfaces cancel /\ overlooks_rejection refetch cancel).
Proof.
  cbv zeta.
  pose proof (buyNftTransaction_shape marketplace connection refetch publicKey
                signTransaction data) as Hbuy.
  pose proof (cancelListingTransaction_shape marketplace connection refetch
                publicKey signTransaction data) as Hcancel.
  split; split.
  - apply (run_shape_surfaces connection refetch), Hbuy.
  - apply (run_shape_overlooks connection), Hbuy.
  - apply (run_shape_surfaces connection refetch), Hcancel.
  - apply (run_shape_overlooks connection), Hcancel.
Qed.

(** C8, as stated, fails: the same attempt on a network that refuses the
    transaction, on one that takes it and fails to confirm it, with the
    same error, and on one whose chain rejects it.  The user is shown
    the same notifications in the first two, and the success in the
    third. *)
Lemma confirmation_failures_are_not_surfaced_distinctly :
  let refused :=
    trace (Scenario.buy (Some (Mock.Address Scenario.buyer))
             (Some Scenario.signs) Scenario.refusing (Some Scenario.listed)
             (Normal tt)) in
  let unconfirmed :=
    trace (Scenario.buy (Some (Mock.Address Scenario.buyer))
             (Some Scenario.signs) Scenario.unconfirming (Some Scenario.listed)
             (Normal tt)) in
  let rejected :=
    trace (Scenario.buy (Some (Mock.Address Scenario.buyer))
             (Some Scenario.signs) Scenario.rejecting (Some Scenario.listed)
             (Normal tt)) in
  submission_failed (W := Mock.web3) refused Scenario.unreachable /\
  confirmation_failed (W := Mock.web3) unconfirmed Scenario.unreachable /\
  ~ submission_failed (W := Mock.web3) unconfirmed Scenario.unreachable /\
  toasts (W := Mock.web3) unconfirmed = toasts (W := Mock.web3) refused /\
  rejected_on_chain (W := Mock.web3) rejected
    "InstructionError: [2, Custom: 6003]" /\
  toasts (W := Mock.web3) rejected
  = [(ToastDefault, "Sending the transaction to Solana.");
     (ToastSuccess, "The transaction was confirmed.")].
Proof.
  cbv zeta. repeat split.
  - left. eexists. cbv. do 15 right. left. reflexivity.
  - eexists. eexists. cbv. do 16 right. left. reflexivity.
  - intros [[raw H]|(txt & signed & H & Hs)]; vm_compute in H; in_cases.
  - exists "5VERv8NMvzbJMEkV8xnrLkEaWRt", "confirmed", Scenario.rejected.
    split; [|reflexivity].
    vm_compute. do 16 right. left. reflexivity.
Qed.

(** C4. With the wallet connected, when no listing of the marketplace's
    auction house is found, or the viewer owns the token, or no snapshot
    is loaded, the buy handler returns at once: it makes no call at all
    (no derivation, no instruction built, no signing, no submission, no
    fetch of the snapshot, no notification). *)
Theorem buy_guards {W : Web3} {AH : AuctionHouseProgram W}
    (marketplace : Marketplace.t) (connection : Connection)
    (refetch : Completion unit) (pk : PublicKey)
    (sign : Transaction.t PublicKey -> Completion (Transaction.t PublicKey))
    (data : option GetNftData.t) :
  listing marketplace data = None \/
  (exists d, data = Some d /\
             NftOwner.address (Nft.owner (GetNftData.nft d)) = toBase58 pk) \/
  data = None ->
  buyNftTransaction marketplace (Some pk) (Some sign) connection data refetch
  = ([], Normal tt).
Proof.
  unfold buyNftTransaction.
  intros [Hl|[(d & -> & Ho)| ->]].
  - rewrite Hl. reflexivity.
  - rewrite isOwner_truthy, Ho, String.eqb_refl.
    destruct (listing marketplace (Some d)); reflexivity.
  - reflexivity.
Qed.

(** The seller looks at their own listed token and presses Buy. *)
Lemma buy_guards_witness :
  (listing Scenario.marketplace (Some Scenario.listed) = None \/
   (exists d, Some Scenario.listed = Some d /\
              NftOwner.address (Nft.owner (GetNftData.nft d))
              = toBase58 (Web3 := Mock.web3) (Mock.Address Scenario.seller)) \/
   Some Scenario.listed = None) /\
  Scenario.buy (Some (Mock.Address Scenario.seller)) (Some Scenario.signs)
    Scenario.healthy (Some Scenario.listed) (Normal tt)
  = ([], Normal tt).
Proof.
  assert (H : listing Scenario.marketplace (Some Scenario.listed) = None \/
              (exists d, Some Scenario.listed = Some d /\
                 NftOwner.address (Nft.owner (GetNftData.nft d))
                 = toBase58 (Web3 := Mock.web3)
                     (Mock.Address Scenario.seller)) \/
              Some Scenario.listed = None).
  { right. left. exists Scenario.listed. split; reflexivity. }
  split; [exact H|].
  exact (buy_guards (AH := Mock.program) Scenario.marketplace Scenario.healthy
           (Normal tt) (Mock.Address Scenario.seller) Scenario.signs
           (Some Scenario.listed) H).
Defined.

(** C5, as the code has it.  With the wallet connected, when the
    viewer's address is not the address of the token's owner in the
    snapshot, the cancel handler returns at once and makes no call. *)
Theorem cancel_guard {W : Web3} {AH : AuctionHouseProgram W}
    (marketplace : Marketplace.t) (connection : Connection)
    (refetch : Completion unit) (pk : PublicKey)
    (sign : Transaction.t PublicKey -> Completion (Transaction.t PublicKey))
    (d : GetNftData.t) :
  NftOwner.address (Nft.owner (GetNftData.nft d)) <> toBase58 pk ->
  cancelListingTransaction marketplace (Some pk) (Some sign) connection
    (Some d) refetch
  = ([], Normal tt).
Proof.
  intros Ho. unfold cancelListingTransaction.
  rewrite isOwner_truthy.
  apply String.eqb_neq in Ho. rewrite Ho.
  destruct (listing marketplace (Some d)); reflexivity.
Qed.

(** The buyer presses Cancel on the seller's listed token. *)
Lemma cancel_guard_witness :
  NftOwner.address (Nft.owner (GetNftData.nft Scenario.listed))
  <> toBase58 (Web3 := Mock.web3) (Mock.Address Scenario.buyer) /\
  Scenario.cancelListing (Some (Mock.Address Scenario.buyer))
    (Some Scenario.signs) Scenario.healthy (Some Scenario.listed) (Normal tt)
  = ([], Normal tt).
Proof.
  assert (H : NftOwner.address (Nft.owner (GetNftData.nft Scenario.listed))
              <> toBase58 (Web3 := Mock.web3) (Mock.Address Scenario.buyer)).
  { discriminate. }
  split; [exact H|].
  exact (cancel_guard (AH := Mock.program) Scenario.marketplace Scenario.healthy
           (Normal tt) (Mock.Address Scenario.buyer) Scenario.signs
           Scenario.listed H).
Defined.

(** C5, as stated, fails: the token has moved to a new holder and the
    seller's listing is still reported.  The new holder is not the
    seller of the listing, and yet their Cancel goes through the guards:
    the trade state is derived, two instructions are built, the wallet
    signs, the transaction is sent and the snapshot fetched again. *)
Lemma cancel_by_owner_who_is_not_the_seller :
  let tr :=
    trace (Scenario.cancelListing (Some (Mock.Address Scenario.newHolder))
             (Some Scenario.signs) Scenario.healthy (Some Scenario.moved)
             (Normal tt)) in
  listing Scenario.marketplace (Some Scenario.moved)
  = Some Scenario.sellerListing /\
  toBase58 (Web3 := Mock.web3) (Mock.Address Scenario.newHolder)
  <> Listing.seller Scenario.sellerListing /\
  List.length (finds (W := Mock.web3) tr) = 1%nat /\
  List.length (creates (W := Mock.web3) tr) = 2%nat /\
  List.length (signing_requests (W := Mock.web3) tr) = 1%nat /\
  refetch_calls (W := Mock.web3) tr = 1%nat.
Proof.
  cbv zeta. repeat split. discriminate.
Qed.

(** C6, as the code has it.  With the wallet connected and a listing
    found, when the viewer's address is the seller's and the seller is
    the owner of the token in the snapshot, the buy handler returns at
    once and makes no call: no instruction is built and the pipeline
    does not start. *)
Theorem buy_by_seller {W : Web3} {AH : AuctionHouseProgram W}
    (marketplace : Marketplace.t) (connection : Connection)
    (refetch : Completion unit) (pk : PublicKey)
    (sign : Transaction.t PublicKey -> Completion (Transaction.t PublicKey))
    (d : GetNftData.t) (l : Listing.t) :
  listing marketplace (Some d) = Some l ->
  toBase58 pk = Listing.seller l ->
  NftOwner.address (Nft.owner (GetNftData.nft d)) = Listing.seller l ->
  buyNftTransaction marketplace (Some pk) (Some sign) connection (Some d) refetch
  = ([], Normal tt).
Proof.
  intros Hl Hs Ho. unfold buyNftTransaction.
  rewrite isOwner_truthy, Ho, Hs, String.eqb_refl, Hl. reflexivity.
Qed.

(** The seller presses Buy on the token they own and have listed. *)
Lemma buy_by_seller_witness :
  listing Scenario.marketplace (Some Scenario.listed)
  = Some Scenario.sellerListing /\
  toBase58 (Web3 := Mock.web3) (Mock.Address Scenario.seller)
  = Listing.seller Scenario.sellerListing /\
  NftOwner.address (Nft.owner (GetNftData.nft Scenario.listed))
  = Listing.seller Scenario.sellerListing /\
  Scenario.buy (Some (Mock.Address Scenario.seller)) (Some Scenario.signs)
    Scenario.healthy (Some Scenario.listed) (Normal tt)
  = ([], Normal tt).
Proof.
  do 3 (split; [reflexivity|]).
  exact (buy_by_seller (AH := Mock.program) Scenario.marketplace
           Scenario.healthy (Normal tt) (Mock.Address Scenario.seller)
           Scenario.signs Scenario.listed Scenario.sellerListing
           eq_refl eq_refl eq_refl).
Defined.

(** C6, as stated, fails: the token has moved to a new holder and the
    seller's listing is still reported.  The viewer is the seller of the
    listing, and yet their Buy goes through the guards: eight addresses
    are derived, four instructions are built and handed to the wallet,
    the transaction is sent. *)
Lemma buy_by_seller_who_is_not_the_owner :
  let tr :=
    trace (Scenario.buy (Some (Mock.Address Scenario.seller))
             (Some Scenario.signs) Scenario.healthy (Some Scenario.moved)
             (Normal tt)) in
  listing Scenario.marketplace (Some Scenario.moved)
  = Some Scenario.sellerListing /\
  toBase58 (Web3 := Mock.web3) (Mock.Address Scenario.seller)
  = Listing.seller Scenario.sellerListing /\
  List.length (finds (W := Mock.web3) tr) = 8%nat /\
  List.length (creates (W := Mock.web3) tr) = 4%nat /\
  map (fun txt => List.length (Transaction.instructions txt))
      (signing_requests (W := Mock.web3) tr) = [4%nat] /\
  confirmed (W := Mock.web3) tr = true.
Proof.
  cbv zeta. repeat split.
Qed.

(** C7. When the wallet gives no public key or no signing function,
    either handler asks for a login and does nothing else: no address is
    derived, no instruction is built, nothing is signed or sent, and no
    notification is shown. *)
Theorem wallet_unavailable {W : Web3} {AH : AuctionHouseProgram W}
    (marketplace : Marketplace.t) (connection : Connection)
    (refetch : Completion unit) (publicKey : option PublicKey)
    (signTransaction :
       option (Transaction.t PublicKey -> Completion (Transaction.t PublicKey)))
    (data : option GetNftData.t) :
  publicKey = None \/ signTransaction = None ->
  buyNftTransaction marketplace publicKey signTransaction connection data
    refetch
  = ([Login], Normal tt) /\
  cancelListingTransaction marketplace publicKey signTransaction connection
    data refetch
  = ([Login], Normal tt).
Proof.
  unfold buyNftTransaction, cancelListingTransaction.
  intros [->| ->]; [|destruct publicKey]; split; reflexivity.
Qed.

(** A visitor without a wallet presses Buy, then Cancel. *)
Lemma wallet_unavailable_witness :
  (@None Mock.Key = None \/ Some Scenario.signs = None) /\
  Scenario.buy None (Some Scenario.signs) Scenario.healthy
    (Some Scenario.listed) (Normal tt)
  = ([Login], Normal tt) /\
  Scenario.cancelListing None (Some Scenario.signs) Scenario.healthy
    (Some Scenario.listed) (Normal tt)
  = ([Login], Normal tt).
Proof.
  split; [left; reflexivity|].
  exact (wallet_unavailable (AH := Mock.program) Scenario.marketplace
           Scenario.healthy (Normal tt) None (Some Scenario.signs)
           (Some Scenario.listed) (or_introl eq_refl)).
Defined.

(** C10. When the addresses it reads are well formed, the cancel handler
    derives one trade state, from the viewer's key, the auction house,
    the owner's token account, the treasury mint, the token mint, the
    price of the listing and the token size 1, and hands that address to
    the cancel instruction; past the guards the handler runs this
    building.  The trade state stored in the listing plays no part: the
    building is the same with any other value there.  The address is the
    seller's trade state when the viewer is the seller, and only then if
    the derivation sends distinct wallets to distinct addresses. *)
Theorem cancel_trade_state {W : Web3} {AH : AuctionHouseProgram W}
    (marketplace : Marketplace.t) (pk : PublicKey) (l : Listing.t)
    (d : GetNftData.t)
    (auctionHouse authority auctionHouseFeeAccount tokenMint treasuryMint
       receipt tokenAccount : PublicKey)
    (buyerPrice : Z) :
  let ah := Marketplace.auctionHouse marketplace in
  let nft := GetNftData.nft d in
  PublicKey_new (AuctionHouse.address ah) = Normal auctionHouse ->
  PublicKey_new (AuctionHouse.authority ah) = Normal authority ->
  PublicKey_new (AuctionHouse.auctionHouseFeeAccount ah)
  = Normal auctionHouseFeeAccount ->
  PublicKey_new (Nft.mintAddress nft) = Normal tokenMint ->
  PublicKey_new (AuctionHouse.treasuryMint ah) = Normal treasuryMint ->
  PublicKey_new (Listing.address l) = Normal receipt ->
  PublicKey_new (NftOwner.associatedTokenAccountAddress (Nft.owner nft))
  = Normal tokenAccount ->
  toNumber (Listing.price l) = Normal buyerPrice ->
  let derivation :=
    findTradeStateAddress pk auctionHouse tokenAccount treasuryMint tokenMint
      buyerPrice 1 in
  let cancelInstruction :=
    createCancelInstruction
      {| Cancel.wallet := pk;
         Cancel.tokenAccount := tokenAccount;
         Cancel.tokenMint := tokenMint;
         Cancel.authority := authority;
         Cancel.auctionHouse := auctionHouse;
         Cancel.auctionHouseFeeAccount := auctionHouseFeeAccount;
         Cancel.tradeState := fst derivation |}
      {| Cancel.buyerPrice := buyerPrice; Cancel.tokenSize := 1 |} in
  (exists tr txt cancelListingReceiptInstruction,
      cancelTransaction marketplace pk l d = (tr, Normal txt) /\
      finds tr = [(FindTradeStateAddress, derivation)] /\
      creates tr =
        [(CreateCancelInstruction, cancelInstruction);
         (CreateCancelListingReceiptInstruction,
          cancelListingReceiptInstruction)] /\
      Transaction.instructions txt
      = [cancelInstruction; cancelListingReceiptInstruction]) /\
  (forall sign connection refetch,
      listing marketplace (Some d) = Some l ->
      truthy (isOwner (Some pk) (Some d)) = true ->
      cancelListingTransaction marketplace (Some pk) (Some sign) connection
        (Some d) refetch
      = Async.bind (cancelTransaction marketplace pk l d)
                   (signAndSend connection refetch pk sign)) /\
  (forall tradeState tradeStateBump,
      cancelTransaction marketplace pk
        (with_tradeState l tradeState tradeStateBump) d
      = cancelTransaction marketplace pk l d) /\
  (forall seller,
      PublicKey_new (Listing.seller l) = Normal seller ->
      let sellerTradeState :=
        fst (findTradeStateAddress seller auctionHouse tokenAccount
               treasuryMint tokenMint buyerPrice 1) in
      (pk = seller -> fst derivation = sellerTradeState) /\
      ((forall w1 w2,
           fst (findTradeStateAddress w1 auctionHouse tokenAccount
                  treasuryMint tokenMint buyerPrice 1)
           = fst (findTradeStateAddress w2 auctionHouse tokenAccount
                    treasuryMint tokenMint buyerPrice 1) ->
           w1 = w2) ->
       fst derivation = sellerTradeState -> pk = seller)).
Proof.
  intros ah nft H1 H2 H3 H4 H5 H6 H7 H8 derivation cancelInstruction.
  subst ah nft derivation cancelInstruction.
  split; [|split; [|split]].
  - unfold cancelTransaction, new_PublicKey, awaitFind, create. run_async.
    rewrite H1, H2, H3, H4, H5, H6, H7, H8. cbn.
    destruct (findTradeStateAddress pk auctionHouse tokenAccount treasuryMint
                tokenMint buyerPrice 1) as [tradeState bump].
    cbn. do 3 eexists. repeat split.
  - intros sign connection refetch.
    apply cancelListingTransaction_proceeds.
  - reflexivity.
  - intros seller _. cbv zeta. split.
    + intros ->. reflexivity.
    + intros Hinj. apply Hinj.
Qed.

(** The seller cancels their listing: the trade state handed to the
    cancel instruction is derived from the seller's key and 2.5 SOL. *)
Lemma cancel_trade_state_witness :
  let key := Mock.Address in
  let tradeState :=
    Mock.Derived FindTradeStateAddress
      [key Scenario.seller;
       key "AuctionHouse11111111111111111111111111111111";
       key "TokenAccount1111111111111111111111111111111";
       key "So11111111111111111111111111111111111111112";
       key "Mint111111111111111111111111111111111111111"]
      [2500000000; 1] in
  cancel_inputs_ok (W := Mock.web3) Scenario.marketplace Scenario.sellerListing
    Scenario.listed = true /\
  exists tr txt,
    cancelTransaction (AH := Mock.program) Scenario.marketplace
      (key Scenario.seller) Scenario.sellerListing Scenario.listed
    = (tr, Normal txt) /\
    finds (W := Mock.web3) tr = [(FindTradeStateAddress, (tradeState, 252))] /\
    (exists cancel,
        nth_error (Transaction.instructions txt) 0 = Some cancel /\
        In (Mock.account tradeState false true)
           (TransactionInstruction.keys cancel)) /\
    tradeState
    <> fst (findTradeStateAddress (AuctionHouseProgram := Mock.program)
              (key Scenario.newHolder)
              (key "AuctionHouse11111111111111111111111111111111")
              (key "TokenAccount1111111111111111111111111111111")
              (key "So11111111111111111111111111111111111111112")
              (key "Mint111111111111111111111111111111111111111")
              2500000000 1).
Proof.
  cbv zeta. split; [reflexivity|].
  destruct (cancel_trade_state (AH := Mock.program) Scenario.marketplace
              (Mock.Address Scenario.newHolder) Scenario.sellerListing
              Scenario.listed
              (Mock.Address "AuctionHouse11111111111111111111111111111111")
              (Mock.Address "Authority11111111111111111111111111111111111")
              (Mock.Address "FeeAccount1111111111111111111111111111111111")
              (Mock.Address "Mint111111111111111111111111111111111111111")
              (Mock.Address "So11111111111111111111111111111111111111112")
              (Mock.Address "Receipt111111111111111111111111111111111111")
              (Mock.Address "TokenAccount1111111111111111111111111111111")
              2500000000
              eq_refl eq_refl eq_refl eq_refl eq_refl eq_refl eq_refl eq_refl)
    as (_ & _ & _ & Hseller).
  destruct (Hseller (Mock.Address Scenario.seller) eq_refl) as [_ Honly].
  destruct (cancel_trade_state (AH := Mock.program) Scenario.marketplace
              (Mock.Address Scenario.seller) Scenario.sellerListing
              Scenario.listed
              (Mock.Address "AuctionHouse11111111111111111111111111111111")
              (Mock.Address "Authority11111111111111111111111111111111111")
              (Mock.Address "FeeAccount1111111111111111111111111111111111")
              (Mock.Address "Mint111111111111111111111111111111111111111")
              (Mock.Address "So11111111111111111111111111111111111111112")
              (Mock.Address "Receipt111111111111111111111111111111111111")
              (Mock.Address "TokenAccount1111111111111111111111111111111")
              2500000000
              eq_refl eq_refl eq_refl eq_refl eq_refl eq_refl eq_refl eq_refl)
    as [(tr & txt & receipt & Hrun & Hfinds & _ & Hi) _].
  exists tr, txt. split; [exact Hrun|]. split; [exact Hfinds|].
  split.
  - eexists. rewrite Hi. split; [reflexivity|].
    cbn. do 6 right. left. reflexivity.
  - intros Heq.
    assert (Hsame : Mock.Address Scenario.newHolder
                    = Mock.Address Scenario.seller).
    { apply Honly.
      - intros w1 w2 H. cbn in H. injection H as H. exact H.
      - symmetry. exact Heq. }
    discriminate Hsame.
Defined.

(** * More of the page *)

(** ** The server-side props *)

Lemma includes_In (x : string) (l : list string) :
  includes x l = true <-> In x l.
Proof.
  unfold includes. rewrite existsb_exists. split.
  - intros (y & Hy & Heq). apply String.eqb_eq in Heq. subst. assumption.
  - intros H. exists x. split; [assumption|apply String.eqb_refl].
Qed.

(** [uniq] keeps the elements that were not seen, and no other. *)
Lemma uniqFrom_In (l seen : list string) (x : string) :
  In x (uniqFrom seen l) <-> In x l /\ ~ In x seen.
Proof.
  revert seen. induction l as [|y l IH]; intros seen; cbn.
  - tauto.
  - destruct (includes y seen) eqn:Hy.
    + apply includes_In in Hy. rewrite IH. split.
      * tauto.
      * intros [[->|H] Hn]; [contradiction|tauto].
    + assert (Hn : ~ In y seen).
      { intros H. apply includes_In in H. congruence. }
      cbn. rewrite IH. cbn. split.
      * intros [->|[H Hs]]; [tauto|]. split; [tauto|]. intros Hx. tauto.
      * intros [[->|H] Hs]; [tauto|].
        destruct (String.eqb_spec y x) as [->|Hne]; [tauto|]. right.
        split; [assumption|]. intros [Heq|Hx]; [congruence|contradiction].
Qed.

Lemma intersection_In (list1 list2 : list string) (x : string) :
  In x (intersection list1 list2) <-> In x list1 /\ In x list2.
Proof.
  unfold intersection, uniq. rewrite uniqFrom_In, filter_In, includes_In.
  cbn. tauto.
Qed.

Lemma isEmpty_false {A : Type} (l : list A) :
  isEmpty l = false <-> exists x, In x l.
Proof.
  destruct l as [|x l]; cbn; split.
  - discriminate.
  - intros [x []].
  - intros _. exists x. left. reflexivity.
  - reflexivity.
Qed.

(** X1. [getServerSideProps] serves the page exactly when the query
    returned a marketplace and a token and some creator of the token is
    a creator of the marketplace; the props then carry that marketplace
    and that token, neither of them null, and the token has a creator.
    It answers not-found exactly when the query returned and did not
    return such a marketplace and token, and it throws exactly when the
    query throws, with the error of the query. *)
Theorem page_served_for_a_shared_creator
    (SUBDOMAIN header address : option string)
    (query : GetNftPageVariables.t -> Completion GetNftPage.t)
    (marketplace : option MarketplacePage.t) (nft : option NftPage.t)
    (e : Error) :
  let variables :=
    {| GetNftPageVariables.subdomain := or_string header SUBDOMAIN;
       GetNftPageVariables.address := address |} in
  let served := getServerSideProps SUBDOMAIN header address query in
  (served = Normal (Props marketplace nft)
   <->
   exists m n a,
     query variables
     = Normal {| GetNftPage.marketplace := Some m; GetNftPage.nft := Some n |} /\
     marketplace = Some m /\ nft = Some n /\
     In a (map StoreCreator.creatorAddress (MarketplacePage.creators m)) /\
     In a (map NftCreator.address (NftPage.creators n)) /\
     NftPage.creators n <> []) /\
  (served = Normal NotFound
   <->
   exists response,
     query variables = Normal response /\
     forall m n a,
       response
       = {| GetNftPage.marketplace := Some m; GetNftPage.nft := Some n |} ->
       In a (map StoreCreator.creatorAddress (MarketplacePage.creators m)) ->
       ~ In a (map NftCreator.address (NftPage.creators n))) /\
  (served = Throw e <-> query variables = Throw e).
Proof.
  cbv zeta. unfold getServerSideProps.
  destruct (query _) as [[[m|] [n|]]|e']; cbn -[intersection].
  2-4: split; [|split];
    [split; [discriminate|intros (? & ? & ? & H & _); discriminate H]
    |split; [intros _; eexists; split; [reflexivity|]; intros ? ? ? H;
             discriminate H
            |reflexivity]
    |split; discriminate].
  2: { split; [|split].
       - split; [discriminate|intros (? & ? & ? & H & _); discriminate H].
       - split; [discriminate|intros (? & H & _); discriminate H].
       - split; intros H; injection H as ->; reflexivity. }
  match goal with
  | |- context [isEmpty ?l] => destruct (isEmpty l) eqn:He
  end.
  - assert (Hnone : forall a,
               In a (map StoreCreator.creatorAddress (MarketplacePage.creators m)) ->
               ~ In a (map NftCreator.address (NftPage.creators n))).
    { intros a Hm Hn.
      assert (Hex : exists x,
                 In x (intersection
                         (map StoreCreator.creatorAddress
                              (MarketplacePage.creators m))
                         (map NftCreator.address (NftPage.creators n)))).
      { exists a. apply intersection_In. tauto. }
      apply isEmpty_false in Hex. congruence. }
    split; [|split].
    + split; [discriminate|].
      intros (m' & n' & a & H & _ & _ & Hm & Hn & _).
      injection H as <- <-. destruct (Hnone a Hm Hn).
    + split; [|reflexivity].
      intros _. eexists. split; [reflexivity|].
      intros m' n' a H. injection H as <- <-. apply Hnone.
    + split; discriminate.
  - apply isEmpty_false in He as [a Ha].
    apply intersection_In in Ha as [Hm Hn].
    split; [|split].
    + split.
      * intros H. injection H as <- <-.
        exists m, n, a. repeat split; try assumption.
        intros Hnil. rewrite Hnil in Hn. destruct Hn.
      * intros (m' & n' & a' & H & -> & -> & _). injection H as <- <-.
        reflexivity.
    + split; [discriminate|].
      intros (response & H & Hnone). injection H as <-.
      destruct (Hnone m n a eq_refl Hm Hn).
    + split; discriminate.
Qed.

(** The token of the example market is served on the market's
    subdomain, also when the subdomain comes from the request header,
    and is not found on another subdomain. *)
Example token_page_on_the_market :
  getServerSideProps (Some "market") None
    (Some "Mint111111111111111111111111111111111111111") Visit.client
  = Normal (Props (Some Visit.store) (Some Visit.token)) /\
  getServerSideProps (Some "elsewhere") (Some "market")
    (Some "Mint111111111111111111111111111111111111111") Visit.client
  = Normal (Props (Some Visit.store) (Some Visit.token)) /\
  getServerSideProps (Some "market") (Some "elsewhere")
    (Some "Mint111111111111111111111111111111111111111") Visit.client
  = Normal NotFound.
Proof. repeat split; vm_compute; reflexivity. Qed.

(** ** What is rendered *)

Section Rendering.
Context {W : Web3} {AH : AuctionHouseProgram W}.
Variable marketplace : Marketplace.t.
Variable connection : Connection.
Variable refetch : Completion unit.

(** A listing is found in a loaded snapshot only. *)
Lemma listing_defined (data : option GetNftData.t) (l : Listing.t) :
  listing marketplace data = Some l ->
  exists d, data = Some d /\
    In l (Nft.listings (GetNftData.nft d)) /\
    Listing.auctionHouse l
    = AuctionHouse.address (Marketplace.auctionHouse marketplace).
Proof.
  unfold listing. destruct data as [d|]; [|discriminate].
  intros H. apply find_some in H as [Hin Heq].
  exists d. repeat split; [assumption|].
  symmetry. apply String.eqb_eq. exact Heq.
Qed.

(** The owner of the loaded snapshot has a key. *)
Lemma isOwner_loaded (publicKey : option PublicKey) (d : GetNftData.t) :
  truthy (isOwner publicKey (Some d)) = true ->
  exists pk, publicKey = Some pk /\
    NftOwner.address (Nft.owner (GetNftData.nft d)) = toBase58 pk.
Proof.
  destruct publicKey as [pk|].
  - rewrite isOwner_truthy. intros H. apply String.eqb_eq in H. eauto.
  - discriminate.
Qed.
End Rendering.

(** X2. [isOwner] holds in two cases only: the snapshot is loaded, the
    wallet has a key and the key's address is the owner's; or there is
    neither a snapshot nor a key, both sides of [equals] being
    [undefined].  In the second case the action bar is the link to sell
    the token. *)
Theorem owner_or_nothing_known {W : Web3} (marketplace : Marketplace.t)
    (publicKey : option PublicKey) (data : option GetNftData.t) :
  (truthy (isOwner publicKey data) = true <->
   (publicKey = None /\ data = None) \/
   (exists pk d, publicKey = Some pk /\ data = Some d /\
      NftOwner.address (Nft.owner (GetNftData.nft d)) = toBase58 pk)) /\
  actions marketplace None None = [SellNftLink].
Proof.
  split; [|reflexivity].
  destruct publicKey as [pk|], data as [d|].
  - rewrite isOwner_truthy, String.eqb_eq. split.
    + intros H. right. exists pk, d. auto.
    + intros [[H _]|(pk' & d' & Hp & Hd & H)]; [discriminate|].
      injection Hp as <-. injection Hd as <-. assumption.
  - cbn. split; [discriminate|].
    intros [[H _]|(pk' & d' & _ & H & _)]; discriminate.
  - cbn. split; [discriminate|].
    intros [[_ H]|(pk' & d' & H & _)]; discriminate.
  - cbn. split; [tauto|reflexivity].
Qed.

(** X3. The action bar never mixes the owner's elements with the
    visitor's: when the link to sell or the form to cancel is rendered,
    neither the form to buy nor the link to make an offer is, and the
    link to sell and the form to cancel are never rendered together.
    The form to buy or the form to cancel is rendered exactly when a
    listing is found, and the link to make an offer only when the
    viewer has no offer. *)
Theorem action_bar_is_for_one_role {W : Web3} (marketplace : Marketplace.t)
    (publicKey : option PublicKey) (data : option GetNftData.t) :
  let bar := actions marketplace publicKey data in
  NoDup bar /\
  (In SellNftLink bar \/ In CancelListingForm bar ->
   truthy (isOwner publicKey data) = true /\
   ~ In BuyNowForm bar /\ ~ In MakeOfferLink bar) /\
  ~ (In SellNftLink bar /\ In CancelListingForm bar) /\
  (In BuyNowForm bar \/ In CancelListingForm bar <->
   exists l, listing marketplace data = Some l) /\
  (In MakeOfferLink bar -> offer publicKey data = None).
Proof.
  unfold actions.
  destruct (listing marketplace data) as [l|],
           (truthy (isOwner publicKey data)),
           (offer publicKey data) as [o|]; cbn.
  all: repeat split;
    try solve [repeat constructor; cbn; intuition discriminate];
    try solve [intros H; intuition discriminate];
    try solve [intros _; eauto];
    try solve [intros [? H]; discriminate H].
Qed.

(** A visitor with a key, who has made no offer, looks at the listed
    token. *)
Lemma action_bar_is_for_one_role_witness :
  actions (W := Mock.web3) Scenario.marketplace
    (Some (Mock.Address Scenario.newHolder)) (Some Scenario.listed)
  = [BuyNowForm; MakeOfferLink] /\
  offer (W := Mock.web3) (Some (Mock.Address Scenario.newHolder))
    (Some Scenario.listed) = None.
Proof.
  split; [reflexivity|].
  apply (action_bar_is_for_one_role (W := Mock.web3) Scenario.marketplace
           (Some (Mock.Address Scenario.newHolder)) (Some Scenario.listed)).
  cbn. right. left. reflexivity.
Defined.

(** X4. The form to buy and the guard of its handler agree.  When the
    form is rendered and the wallet can sign, submitting it passes the
    guard: the handler builds the transaction for the listing found and
    enters the pipeline.  When the form is not rendered, the handler of
    a wallet that can sign makes no call. *)
Theorem buy_form_passes_the_guard {W : Web3} {AH : AuctionHouseProgram W}
    (marketplace : Marketplace.t) (connection : Connection)
    (refetch : Completion unit) (pk : PublicKey)
    (sign : Transaction.t PublicKey -> Completion (Transaction.t PublicKey))
    (data : option GetNftData.t) :
  let run :=
    buyNftTransaction marketplace (Some pk) (Some sign) connection data refetch
  in
  (In BuyNowForm (actions marketplace (Some pk) data) ->
   exists d l,
     data = Some d /\ listing marketplace data = Some l /\
     run = Async.bind (buyTransaction marketplace pk l d)
                      (signAndSend connection refetch pk sign)) /\
  (~ In BuyNowForm (actions marketplace (Some pk) data) ->
   run = ([], Normal tt)).
Proof.
  unfold actions, buyNftTransaction.
  destruct (listing marketplace data) as [l|] eqn:Hl.
  - destruct (listing_defined marketplace data l Hl) as (d & -> & _).
    destruct (truthy (isOwner (Some pk) (Some d))); cbn.
    + split; [|reflexivity].
      destruct (offer (Some pk) (Some d)); cbn; intuition discriminate.
    + split; [eauto|]. intros H. exfalso. apply H. left. reflexivity.
  - cbn. split; [|reflexivity].
    destruct (truthy (isOwner (Some pk) data)), (offer (Some pk) data);
      cbn; intuition discriminate.
Qed.

(** The buyer sees the form on the listed token. *)
Lemma buy_form_passes_the_guard_witness :
  In BuyNowForm
     (actions (W := Mock.web3) Scenario.marketplace
        (Some (Mock.Address Scenario.buyer)) (Some Scenario.listed)) /\
  Scenario.buy (Some (Mock.Address Scenario.buyer)) (Some Scenario.signs)
    Scenario.healthy (Some Scenario.listed) (Normal tt)
  = Async.bind
      (buyTransaction (AH := Mock.program) Scenario.marketplace
         (Mock.Address Scenario.buyer) Scenario.sellerListing Scenario.listed)
      (signAndSend (W := Mock.web3) Scenario.healthy (Normal tt)
         (Mock.Address Scenario.buyer) Scenario.signs).
Proof.
  assert (H : In BuyNowForm
                (actions (W := Mock.web3) Scenario.marketplace
                   (Some (Mock.Address Scenario.buyer))
                   (Some Scenario.listed))).
  { left. reflexivity. }
  split; [exact H|].
  destruct (buy_form_passes_the_guard (AH := Mock.program) Scenario.marketplace
              Scenario.healthy (Normal tt) (Mock.Address Scenario.buyer)
              Scenario.signs (Some Scenario.listed)) as [Hshown _].
  destruct (Hshown H) as (d & l & Hd & Hl & Hrun).
  injection Hd as <-. injection Hl as <-. exact Hrun.
Defined.

(** The form to cancel is rendered for the owner of a listed token. *)
Lemma cancel_form_rendered {W : Web3} (marketplace : Marketplace.t)
    (publicKey : option PublicKey) (data : option GetNftData.t) :
  In CancelListingForm (actions marketplace publicKey data) <->
  defined (listing marketplace data) && truthy (isOwner publicKey data) = true.
Proof.
  unfold actions.
  destruct (listing marketplace data), (truthy (isOwner publicKey data)),
           (offer publicKey data); cbn; intuition discriminate.
Qed.

(** X5. The form to cancel and the guard of its handler agree.  When
    the form is rendered, the wallet has a key, whose address is the
    owner's, and submitting it with a wallet that can sign passes the
    guard: the handler builds the transaction for the listing found and
    enters the pipeline.  When the form is not rendered, the handler of
    a wallet that can sign makes no call. *)
Theorem cancel_form_passes_the_guard {W : Web3} {AH : AuctionHouseProgram W}
    (marketplace : Marketplace.t) (connection : Connection)
    (refetch : Completion unit) (publicKey : option PublicKey)
    (sign : Transaction.t PublicKey -> Completion (Transaction.t PublicKey))
    (data : option GetNftData.t) :
  let run :=
    cancelListingTransaction marketplace publicKey (Some sign) connection data
      refetch in
  (In CancelListingForm (actions marketplace publicKey data) ->
   exists pk d l,
     publicKey = Some pk /\ data = Some d /\
     listing marketplace data = Some l /\
     NftOwner.address (Nft.owner (GetNftData.nft d)) = toBase58 pk /\
     run = Async.bind (cancelTransaction marketplace pk l d)
                      (signAndSend connection refetch pk sign)) /\
  (~ In CancelListingForm (actions marketplace publicKey data) ->
   forall pk, publicKey = Some pk -> run = ([], Normal tt)).
Proof.
  cbv zeta. rewrite cancel_form_rendered. split.
  - intros H. apply andb_true_iff in H as [Hl Ho].
    destruct (listing marketplace data) as [l|] eqn:Hfound; [|discriminate].
    destruct (listing_defined marketplace data l Hfound) as (d & -> & _).
    destruct (isOwner_loaded publicKey d Ho) as (pk & -> & Hpk).
    exists pk, d, l. repeat split; try assumption.
    apply cancelListingTransaction_proceeds; assumption.
  - intros H pk ->. unfold cancelListingTransaction.
    destruct (listing marketplace data) as [l|]; [|reflexivity].
    destruct (truthy (isOwner (Some pk) data)); [|reflexivity].
    exfalso. apply H. reflexivity.
Qed.

(** The seller sees the form on the token they have listed. *)
Lemma cancel_form_passes_the_guard_witness :
  In CancelListingForm
     (actions (W := Mock.web3) Scenario.marketplace
        (Some (Mock.Address Scenario.seller)) (Some Scenario.listed)) /\
  Scenario.cancelListing (Some (Mock.Address Scenario.seller))
    (Some Scenario.signs) Scenario.healthy (Some Scenario.listed) (Normal tt)
  = Async.bind
      (cancelTransaction (AH := Mock.program) Scenario.marketplace
         (Mock.Address Scenario.seller) Scenario.sellerListing Scenario.listed)
      (signAndSend (W := Mock.web3) Scenario.healthy (Normal tt)
         (Mock.Address Scenario.seller) Scenario.signs).
Proof.
  assert (H : In CancelListingForm
                (actions (W := Mock.web3) Scenario.marketplace
                   (Some (Mock.Address Scenario.seller))
                   (Some Scenario.listed))).
  { left. reflexivity. }
  split; [exact H|].
  destruct (cancel_form_passes_the_guard (AH := Mock.program)
              Scenario.marketplace Scenario.healthy (Normal tt)
              (Some (Mock.Address Scenario.seller)) Scenario.signs
              (Some Scenario.listed)) as [Hshown _].
  destruct (Hshown H) as (pk & d & l & Hp & Hd & Hl & _ & Hrun).
  injection Hp as <-. injection Hd as <-. injection Hl as <-. exact Hrun.
Defined.

(** The viewer has an offer, or owns the token. *)
Lemma offer_or_owner {W : Web3} (publicKey : option PublicKey)
    (data : option GetNftData.t) :
  existsb negb (offerAndOwnerNil publicKey data)
  = defined (offer publicKey data) || truthy (isOwner publicKey data) /\
  forallb (fun nil => nil) (offerAndOwnerNil publicKey data)
  = negb (defined (offer publicKey data) || truthy (isOwner publicKey data)).
Proof.
  unfold offerAndOwnerNil, isOwner, or_null.
  destruct (offer publicKey data), (equals _ _); split; reflexivity.
Qed.

(** X6. The table of the offers is rendered with one layout throughout:
    its header has its last label exactly when the grid has four columns
    (and three otherwise), which is when the viewer has an offer or owns
    the token; every row has the columns of the header, and has its last
    cell exactly when the header has its last label.  The notice that
    there are no offers is rendered only when nothing is loading and no
    offer of the marketplace's auction house is in the snapshot; the
    rows, only when nothing is loading, and then there is one at
    least. *)
Theorem offers_table_layout {W : Web3} (marketplace : Marketplace.t)
    (publicKey : option PublicKey) (data : option GetNftData.t)
    (loading : bool) :
  match offersSection marketplace publicKey data loading with
  | NoOffersFound => offers marketplace data = [] /\ loading = false
  | OffersTable columns lastLabel body =>
      columns = (if lastLabel then 4 else 3)%nat /\
      lastLabel
      = defined (offer publicKey data) || truthy (isOwner publicKey data) /\
      match body with
      | OffersSkeleton => loading = true
      | OfferRows rows =>
          loading = false /\ rows <> [] /\
          map row_offer rows = offers marketplace data /\
          Forall (fun row =>
                    row_columns row = columns /\
                    defined (row_forms row) = lastLabel) rows
      end
  end.
Proof.
  unfold offersSection, gridColumns.
  destruct (offer_or_owner publicKey data) as [-> ->].
  destruct (offers marketplace data) as [|o os] eqn:Ho, loading; cbn.
  - destruct (defined _ || truthy _); repeat split.
  - split; reflexivity.
  - destruct (defined _ || truthy _); repeat split.
  - assert (Hrows : forall l,
               map row_offer (map (offerRow publicKey data) l) = l /\
               Forall (fun row =>
                         row_columns row
                         = (if negb (defined (offer publicKey data)
                                     || truthy (isOwner publicKey data))
                            then 3 else 4)%nat /\
                         defined (row_forms row)
                         = defined (offer publicKey data)
                           || truthy (isOwner publicKey data))
                      (map (offerRow publicKey data) l)).
    { induction l as [|x l [IHm IHf]]; [split; constructor|].
      cbn [map]. split; [cbn; f_equal; exact IHm|].
      constructor; [|exact IHf].
      unfold offerRow, gridColumns.
      destruct (offer_or_owner publicKey data) as [_ ->]. cbn.
      destruct (defined _ || truthy _); split; reflexivity. }
    destruct (Hrows (o :: os)) as [Hm Hf]. cbn [map] in Hm, Hf.
    destruct (defined _ || truthy _) eqn:Hd; cbn in *;
      repeat split; try discriminate; assumption.
Qed.

(** X7. In the row of a displayed offer, the form to cancel the offer is
    rendered exactly when the wallet has a key and the offer's buyer is
    its address (the guard on the last cell never hides it), and the
    form to accept the offer exactly when the viewer owns the token. *)
Theorem offer_row_forms {W : Web3} (marketplace : Marketplace.t)
    (publicKey : option PublicKey) (data : option GetNftData.t) (o : Offer.t) :
  In o (offers marketplace data) ->
  let forms :=
    match row_forms (offerRow publicKey data o) with
    | Some forms => forms
    | None => []
    end in
  (In CancelOfferForm forms <->
   exists pk, publicKey = Some pk /\ Offer.buyer o = toBase58 pk) /\
  (In AcceptOfferForm forms <-> truthy (isOwner publicKey data) = true).
Proof.
  intros Hin.
  assert (Hmine : forall pk,
             publicKey = Some pk -> Offer.buyer o = toBase58 pk ->
             defined (offer publicKey data) = true).
  { intros pk -> Hb. unfold offer, offers in *.
    destruct data as [d|]; [|destruct Hin].
    apply filter_In in Hin as [Hin _].
    destruct (find _ _) eqn:Hf; [reflexivity|].
    apply (find_none _ _ Hf) in Hin. cbn in Hin.
    rewrite Hb, String.eqb_refl in Hin. discriminate. }
  assert (Hbuyer : equals (Some (Offer.buyer o)) (option_map toBase58 publicKey)
                   = true <->
                   exists pk, publicKey = Some pk /\ Offer.buyer o = toBase58 pk).
  { destruct publicKey as [pk|]; cbn.
    - rewrite String.eqb_eq. split; [eauto|].
      intros (pk' & H & Hb). injection H as <-. assumption.
    - split; [discriminate|]. intros (pk' & H & _). discriminate. }
  unfold offerRow. cbn [row_forms]. cbv zeta.
  destruct (equals (Some (Offer.buyer o)) (option_map toBase58 publicKey))
    eqn:He.
  - destruct (proj1 Hbuyer eq_refl) as (pk & Hp & Hb).
    rewrite (Hmine pk Hp Hb). cbn.
    destruct (truthy (isOwner publicKey data)); cbn; rewrite <- Hbuyer;
      intuition discriminate.
  - destruct (defined (offer publicKey data)),
             (truthy (isOwner publicKey data)); cbn; rewrite <- Hbuyer;
      intuition discriminate.
Qed.

(** The buyer looks at the token on which they have made an offer. *)
Lemma offer_row_forms_witness :
  let o := Visit.offerBy Scenario.buyer
             "AuctionHouse11111111111111111111111111111111" 2000000000 in
  offers Scenario.marketplace (Some Visit.withOffers) = [o] /\
  row_forms (offerRow (W := Mock.web3) (Some (Mock.Address Scenario.buyer))
               (Some Visit.withOffers) o)
  = Some [CancelOfferForm] /\
  exists pk, Some (Mock.Address Scenario.buyer) = Some pk /\
             Offer.buyer o = toBase58 (Web3 := Mock.web3) pk.
Proof.
  cbv zeta. split; [reflexivity|]. split; [reflexivity|].
  apply (offer_row_forms (W := Mock.web3) Scenario.marketplace
           (Some (Mock.Address Scenario.buyer)) (Some Visit.withOffers)
           (Visit.offerBy Scenario.buyer
              "AuctionHouse11111111111111111111111111111111" 2000000000)).
  - left. reflexivity.
  - left. reflexivity.
Defined.

(** X8. The offers displayed and the listing found are on the same
    auction house, the marketplace's, and come from the snapshot: the
    form to accept an offer is given an offer and a listing of one
    auction house. *)
Theorem offers_and_listing_share_the_auction_house (marketplace : Marketplace.t)
    (data : option GetNftData.t) (o : Offer.t) (l : Listing.t) :
  In o (offers marketplace data) ->
  listing marketplace data = Some l ->
  exists d,
    data = Some d /\
    In o (Nft.offers (GetNftData.nft d)) /\
    In l (Nft.listings (GetNftData.nft d)) /\
    Offer.auctionHouse o
    = AuctionHouse.address (Marketplace.auctionHouse marketplace) /\
    Listing.auctionHouse l = Offer.auctionHouse o.
Proof.
  intros Ho Hl.
  destruct (listing_defined marketplace data l Hl) as (d & -> & Hin & Hah).
  unfold offers in Ho. apply filter_In in Ho as [Ho Heq].
  apply String.eqb_eq in Heq.
  exists d. repeat split; try assumption; congruence.
Qed.

(** The listed token with the buyer's offer. *)
Lemma offers_and_listing_share_the_auction_house_witness :
  let o := Visit.offerBy Scenario.buyer
             "AuctionHouse11111111111111111111111111111111" 2000000000 in
  In o (offers Scenario.marketplace (Some Visit.withOffers)) /\
  listing Scenario.marketplace (Some Visit.withOffers)
  = Some Scenario.sellerListing /\
  Listing.auctionHouse Scenario.sellerListing = Offer.auctionHouse o.
Proof.
  cbv zeta.
  assert (Ho : In (Visit.offerBy Scenario.buyer
                     "AuctionHouse11111111111111111111111111111111" 2000000000)
                  (offers Scenario.marketplace (Some Visit.withOffers))).
  { left. reflexivity. }
  split; [exact Ho|]. split; [reflexivity|].
  destruct (offers_and_listing_share_the_auction_house Scenario.marketplace
              (Some Visit.withOffers) _ Scenario.sellerListing Ho eq_refl)
    as (d & _ & _ & _ & _ & H).
  exact H.
Defined.

(** X9. A row of the activities links to the first wallet of the
    activity and, when the activity has more than one wallet, to the
    second, with the arrow; the second link is always to a wallet that
    is there, and the first is to [undefined] exactly when the activity
    has no wallet.  The label is Sold for a purchase and Listed for any
    other type. *)
Theorem activity_row_wallets (a : Activity.t) :
  let row := activityRow a in
  let wallets := Activity.wallets a in
  (activity_arrow row = true <-> (2 <= List.length wallets)%nat) /\
  activity_links row
  = (nth_error wallets 0
       :: (if activity_arrow row then [nth_error wallets 1] else []))%list /\
  (activity_arrow row = true ->
   exists first second,
     activity_links row = [Some first; Some second] /\
     firstn 2 wallets = [first; second]) /\
  (In None (activity_links row) <-> wallets = []) /\
  (activity_label row = "Sold" <-> Activity.activityType a = "purchase") /\
  (activity_label row = "Listed" <-> Activity.activityType a <> "purchase").
Proof.
  unfold activityRow, moreThanOne, gt. cbn.
  destruct (Activity.wallets a) as [|w [|w' ws]]; cbn.
  all: repeat split; try lia; try discriminate; try tauto.
  all: try solve [intros [H|[]]; discriminate H].
  all: try solve [intros [H|[H|[]]]; discriminate H].
  all: try solve [intros _; eauto].
  all: destruct (String.eqb_spec (Activity.activityType a) "purchase");
    try congruence; try discriminate; auto.
Qed.

(** A sale, from one wallet to another. *)
Lemma activity_row_wallets_witness :
  let a :=
    {| Activity.address := "Receipt111111111111111111111111111111111111";
       Activity.metadata := "Mint111111111111111111111111111111111111111";
       Activity.auctionHouse := "AuctionHouse11111111111111111111111111111111";
       Activity.price := 2500000000;
       Activity.createdAt := "2022-03-04T00:00:00Z";
       Activity.wallets := [Scenario.seller; Scenario.buyer];
       Activity.activityType := "purchase" |} in
  activity_arrow (activityRow a) = true /\
  exists first second,
    activity_links (activityRow a) = [Some first; Some second] /\
    firstn 2 (Activity.wallets a) = [first; second].
Proof.
  cbv zeta. split; [reflexivity|].
  apply activity_row_wallets. reflexivity.
Defined.

(** ** The calls to the wallet, the network and the user *)

Section FlowProofs.
Context {W : Web3} {AH : AuctionHouseProgram W}.
Variable connection : Connection.
Variable refetch : Completion unit.
Implicit Types pre tr : list (Event PublicKey).

Lemma pipeline_app pre tr : pipeline (pre ++ tr) = (pipeline pre ++ pipeline tr)%list.
Proof. apply filter_app. Qed.

Lemma pipeline_sdk_only pre :
  forallb is_sdk_call pre = true <-> pipeline pre = [].
Proof.
  induction pre as [|ev pre IH]; cbn; [tauto|].
  destruct (is_sdk_call ev); cbn; [exact IH|].
  split; discriminate.
Qed.

Lemma pipeline_In tr ev :
  In ev (pipeline tr) <-> In ev tr /\ is_sdk_call ev = false.
Proof.
  unfold pipeline. rewrite filter_In, negb_true_iff. reflexivity.
Qed.

(** A projection that skips the SDK calls sees the pipeline only. *)
Lemma flat_map_pipeline {B : Type} (f : Event PublicKey -> list B) tr :
  (forall ev, is_sdk_call ev = true -> f ev = []) ->
  flat_map f (pipeline tr) = flat_map f tr.
Proof.
  intros Hf. unfold pipeline. induction tr as [|ev tr IH]; [reflexivity|].
  cbn. destruct (is_sdk_call ev) eqn:Hev; cbn.
  - rewrite (Hf ev Hev). exact IH.
  - rewrite IH. reflexivity.
Qed.

Lemma projections_of_pipeline tr :
  toasts (pipeline tr) = toasts tr /\
  signing_requests (pipeline tr) = signing_requests tr /\
  blockhash_requests (pipeline tr) = blockhash_requests tr /\
  send_requests (pipeline tr) = send_requests tr /\
  confirm_requests (pipeline tr) = confirm_requests tr /\
  refetch_calls (pipeline tr) = refetch_calls tr /\
  confirmed (pipeline tr) = confirmed tr.
Proof.
  repeat split.
  1-5: apply flat_map_pipeline; intros [] H; try discriminate H; reflexivity.
  - unfold refetch_calls, pipeline. f_equal.
    induction tr as [|ev tr IH]; [reflexivity|].
    destruct ev; cbn; rewrite ?IH; reflexivity.
  - unfold confirmed, pipeline. induction tr as [|ev tr IH]; [reflexivity|].
    destruct ev; cbn; rewrite ?IH; reflexivity.
Qed.

(** The pipeline runs as [pipeline_run] tells. *)
Lemma signAndSend_run publicKey signTransaction txt :
  pipeline_run connection refetch publicKey signTransaction txt
    (trace (signAndSend connection refetch publicKey signTransaction txt))
    (completion (signAndSend connection refetch publicKey signTransaction txt)).
Proof.
  unfold signAndSend, toast. run_async.
  fold (stamped txt).
  repeat (break_match; cbn in *; subst);
    repeat match goal with
           | H : (_, _) = (_, _) |- _ => injection H as ?; subst
           | u : unit |- _ => destruct u
           end;
    try discriminate.
  all: solve [econstructor; first [eassumption|reflexivity]].
Qed.

Lemma pipeline_run_no_sdk_calls publicKey signTransaction txt tr c :
  pipeline_run connection refetch publicKey signTransaction txt tr c ->
  pipeline tr = tr.
Proof. intros []; reflexivity. Qed.

(** Building, then the pipeline, seen from the wallet and the network. *)
Lemma build_then_sign_run (build : Async.t PublicKey (Transaction.t PublicKey))
    (pk : PublicKey)
    (sign : Transaction.t PublicKey -> Completion (Transaction.t PublicKey)) :
  forallb is_sdk_call (trace build) = true ->
  let run := Async.bind build (signAndSend connection refetch pk sign) in
  handler_run connection refetch (Some pk) (Some sign)
    (pipeline (trace run)) (completion run).
Proof.
  destruct build as [tr0 [txt|e]]; cbn [trace fst]; intros Hsdk.
  - pose proof (signAndSend_run pk sign txt) as Hrun.
    unfold Async.bind.
    destruct (signAndSend connection refetch pk sign txt) as [tr' r].
    cbn [trace completion fst snd] in *.
    rewrite pipeline_app, (proj1 (pipeline_sdk_only tr0) Hsdk).
    cbn [app]. rewrite (pipeline_run_no_sdk_calls _ _ _ _ _ Hrun).
    eapply handler_pipeline; [reflexivity|reflexivity|exact Hrun].
  - unfold Async.bind. cbn [trace completion fst snd].
    rewrite (proj1 (pipeline_sdk_only tr0) Hsdk).
    eapply handler_threw. reflexivity.
Qed.

Lemma buyNftTransaction_run marketplace publicKey signTransaction data :
  let run := buyNftTransaction marketplace publicKey signTransaction connection
               data refetch in
  handler_run connection refetch publicKey signTransaction
    (pipeline (trace run)) (completion run).
Proof.
  unfold buyNftTransaction.
  destruct publicKey as [pk|], signTransaction as [sign|];
    try (apply handler_login; auto).
  destruct (listing marketplace data) as [l|];
    [|eapply handler_stopped; reflexivity].
  destruct (truthy (isOwner (Some pk) data));
    [eapply handler_stopped; reflexivity|].
  destruct data as [d|]; [|eapply handler_stopped; reflexivity].
  apply build_then_sign_run, buyTransaction_sdk_calls.
Qed.

Lemma cancelListingTransaction_run marketplace publicKey signTransaction data :
  let run := cancelListingTransaction marketplace publicKey signTransaction
               connection data refetch in
  handler_run connection refetch publicKey signTransaction
    (pipeline (trace run)) (completion run).
Proof.
  unfold cancelListingTransaction.
  destruct publicKey as [pk|], signTransaction as [sign|];
    try (apply handler_login; auto).
  destruct (listing marketplace data) as [l|];
    [|eapply handler_stopped; reflexivity].
  destruct (truthy (isOwner (Some pk) data));
    [|eapply handler_stopped; reflexivity].
  destruct data as [d|]; [|eapply handler_stopped; reflexivity].
  apply build_then_sign_run, cancelTransaction_sdk_calls.
Qed.
End FlowProofs.

Section FlowProperties.
Context {W : Web3} {AH : AuctionHouseProgram W}.
Variable connection : Connection.
Variable refetch : Completion unit.
Implicit Types tr : list (Event PublicKey).

(** Finds an event in an explicit list. *)
Ltac find_event := cbn; repeat (first [left; reflexivity | right]).

Ltac same_completion :=
  repeat match goal with
         | H1 : ?c = Normal _, H2 : ?c = Throw _ |- _ =>
             rewrite H1 in H2; discriminate H2
         | H1 : ?c = Normal _, H2 : ?c = Normal _ |- _ =>
             rewrite H1 in H2; injection H2 as ?; subst
         | H1 : ?c = Throw _, H2 : ?c = Throw _ |- _ =>
             rewrite H1 in H2; injection H2 as ?; subst
         end.





Ltac solve_iff :=
  let Hx := fresh "Hx" in
  let Hy := fresh "Hy" in
  split;
  [ first
      [ solve [intros Hx; cbn in Hx; in_cases]
      | solve [intros _; split; [reflexivity|assumption]]
      | solve [intros _; do 2 eexists; find_event] ]
  | first
      [ solve [intros _; find_event]
      | solve [intros [Hx Hy]; first [discriminate Hx|congruence]]
      | solve [intros (? & ? & Hx); cbn in Hx; in_cases] ] ].

Lemma handler_run_notifies publicKey signTransaction tr c :
  handler_run connection refetch publicKey signTransaction tr c ->
  notifies refetch tr.
Proof.
  intros [Hw|pk Hp|pk e Hp|pk sign txt p c' Hp Hs Hrun].
  1-3: unfold notifies; cbn; split; [auto|split; solve_iff].
  destruct Hrun; unfold notifies; cbn.
  all: split; [eauto 6|split; solve_iff].
Qed.

Lemma notifies_of_pipeline tr :
  notifies refetch (pipeline tr) -> notifies refetch tr.
Proof.
  unfold notifies.
  destruct (projections_of_pipeline tr) as (-> & _ & _ & _ & _ & _ & ->).
  intros (H1 & H2 & H3). repeat split; try tauto.
  - intros H. apply H3 in H as (txt & signed & Hin).
    apply pipeline_In in Hin as [Hin _]. eauto.
  - intros (txt & signed & Hin). apply H3. exists txt, signed.
    apply pipeline_In. split; [assumption|reflexivity].
Qed.

Lemma handler_run_completion publicKey signTransaction tr c :
  handler_run connection refetch publicKey signTransaction tr c ->
  c = Normal tt \/
  exists e,
    c = Throw e /\ toasts tr = [] /\ signing_requests tr = [] /\
    (blockhash_requests tr = [Throw e] \/ tr = []).
Proof.
  intros [Hw|pk Hk|pk e Hk|pk sign txt p c' Hk Hs Hrun]; auto.
  - right. exists e. repeat split. right. reflexivity.
  - destruct Hrun; auto.
    right. exists e. repeat split. left. reflexivity.
Qed.

Lemma handler_run_escapes publicKey signTransaction
    (run : Async.t PublicKey unit) :
  handler_run connection refetch publicKey signTransaction
    (pipeline (trace run)) (completion run) ->
  escapes run.
Proof.
  intros H. apply handler_run_completion in H.
  unfold escapes.
  destruct (projections_of_pipeline (trace run)) as (<- & <- & <- & _).
  destruct H as [H|(e & H & Ht & Hs & Hb)]; [left; exact H|].
  right. exists e. repeat split; try assumption.
  destruct Hb as [Hb|Hb]; [left; exact Hb|right].
  apply pipeline_sdk_only. exact Hb.
Qed.
End FlowProperties.



(** X12. The notifications of a run of either handler are none, one
    error, the notice that the transaction is being sent followed by one
    error, or that notice followed by the success.  The success is
    shown exactly when the confirmation returned and the fetch of the
    snapshot returned; the notice exactly when the wallet returned a
    signed transaction. *)
Theorem notifications_of_a_run {W : Web3} {AH : AuctionHouseProgram W}
    (marketplace : Marketplace.t) (connection : Connection)
    (refetch : Completion unit) (publicKey : option PublicKey)
    (signTransaction :
       option (Transaction.t PublicKey -> Completion (Transaction.t PublicKey)))
    (data : option GetNftData.t) :
  notifies refetch
    (trace (buyNftTransaction marketplace publicKey signTransaction connection
              data refetch)) /\
  notifies refetch
    (trace (cancelListingTransaction marketplace publicKey signTransaction
              connection data refetch)).
Proof.
  split; apply notifies_of_pipeline;
    eapply (handler_run_notifies connection refetch).
  - apply buyNftTransaction_run.
  - apply cancelListingTransaction_run.
Qed.

(** X13. Either handler returns normally, or an error escapes it; an
    error escapes only before the wallet is asked and without any
    notification: it was thrown while the inputs were read and the
    transaction built (the run then has made calls to the SDK only), or
    by the request for a blockhash, which is outside the [try] blocks. *)
Theorem errors_escape_before_signing {W : Web3} {AH : AuctionHouseProgram W}
    (marketplace : Marketplace.t) (connection : Connection)
    (refetch : Completion unit) (publicKey : option PublicKey)
    (signTransaction :
       option (Transaction.t PublicKey -> Completion (Transaction.t PublicKey)))
    (data : option GetNftData.t) :
  escapes (buyNftTransaction marketplace publicKey signTransaction connection
             data refetch) /\
  escapes (cancelListingTransaction marketplace publicKey signTransaction
             connection data refetch).
Proof.
  split; eapply (handler_run_escapes connection refetch).
  - apply buyNftTransaction_run.
  - apply cancelListingTransaction_run.
Qed.

(** ** Which inputs the builders read *)

Section Inputs.
Context {W : Web3} {AH : AuctionHouseProgram W}.
Variable marketplace : Marketplace.t.

Lemma creatorAccounts_completion (creators : list NftCreator.t) :
  is_normal (completion (Async.mapM creatorAccount creators))
  = forallb (fun c => is_address (NftCreator.address c)) creators.
Proof.
  induction creators as [|c cs IH]; [reflexivity|].
  cbn [forallb]. rewrite <- IH. simpl Async.mapM. unfold is_address.
  destruct (creatorAccount_cases c) as [(k & -> & ->)|(e & -> & ->)];
    [|reflexivity].
  unfold Async.bind at 1.
  destruct (Async.mapM creatorAccount cs) as [tr [ks|e]]; reflexivity.
Qed.

Ltac run_builder :=
  unfold buyTransaction, cancelTransaction, new_PublicKey, awaitFind, create;
  run_async.

Lemma buyTransaction_completion pk l d :
  is_normal (completion (buyTransaction marketplace pk l d))
  = buy_inputs_ok marketplace l d.
Proof.
  unfold buy_inputs_ok. rewrite <- creatorAccounts_completion.
  unfold is_address, is_normal. run_builder.
  destruct (Async.mapM creatorAccount (Nft.creators (GetNftData.nft d)))
    as [tr [accounts|e]].
  all: repeat (break_match; cbn in *; try discriminate; try reflexivity).
Qed.

Lemma cancelTransaction_completion pk l d :
  is_normal (completion (cancelTransaction marketplace pk l d))
  = cancel_inputs_ok marketplace l d.
Proof.
  unfold cancel_inputs_ok, is_address, is_normal. run_builder.
  repeat (break_match; cbn in *; try discriminate; try reflexivity).
Qed.

Lemma buyTransaction_throws pk l d tr e :
  buyTransaction marketplace pk l d = (tr, Throw e) ->
  tr = [] \/
  (List.length (finds tr) = 8%nat /\ List.length (creates tr) = 4%nat /\
   forallb (fun c => is_address (NftCreator.address c))
           (Nft.creators (GetNftData.nft d)) = false).
Proof.
  rewrite <- creatorAccounts_completion.
  pose proof (creatorAccounts_trace (Nft.creators (GetNftData.nft d))) as Hc.
  run_builder. intros H.
  destruct (Async.mapM creatorAccount (Nft.creators (GetNftData.nft d)))
    as [tr' [accounts|e']].
  all: cbn in Hc; subst tr'.
  all: repeat (break_match_in H; cbn in H; try discriminate H).
  all: injection H as <- <-; auto.
Qed.

Lemma cancelTransaction_throws pk l d tr e :
  cancelTransaction marketplace pk l d = (tr, Throw e) -> tr = [].
Proof.
  run_builder. intros H.
  repeat (break_match_in H; cbn in H; try discriminate H).
  all: injection H as <- <-; reflexivity.
Qed.
End Inputs.

(** X14. Either builder returns a transaction exactly when the addresses
    it reads are addresses and the price is a safe integer.  When the
    buy builder throws, it does so before any call to the SDK, or, for a
    creator that has no address, after its eight derivations and its
    four instructions; when the cancel builder throws, it has made no
    call. *)
Theorem transaction_built_on_well_formed_inputs
    {W : Web3} {AH : AuctionHouseProgram W}
    (marketplace : Marketplace.t) (pk : PublicKey) (l : Listing.t)
    (d : GetNftData.t) :
  is_normal (completion (buyTransaction marketplace pk l d))
  = buy_inputs_ok marketplace l d /\
  is_normal (completion (cancelTransaction marketplace pk l d))
  = cancel_inputs_ok marketplace l d /\
  (forall tr e,
      buyTransaction marketplace pk l d = (tr, Throw e) ->
      tr = [] \/
      (List.length (finds tr) = 8%nat /\ List.length (creates tr) = 4%nat /\
       forallb (fun c => is_address (NftCreator.address c))
               (Nft.creators (GetNftData.nft d)) = false)) /\
  (forall tr e,
      cancelTransaction marketplace pk l d = (tr, Throw e) -> tr = []).
Proof.
  split; [apply buyTransaction_completion|].
  split; [apply cancelTransaction_completion|].
  split.
  - apply buyTransaction_throws.
  - apply cancelTransaction_throws.
Qed.

(** X15. Of the listing, the buy builder reads the seller, the address,
    the stored trade state and the price, and nothing else; the cancel
    builder reads the address and the price.  Two listings that agree
    on these fields give the same calls and the same transaction: the
    token size, the bumps, the receipt of a purchase and the time of a
    cancellation of the listing play no part. *)
Theorem listing_fields_read {W : Web3} {AH : AuctionHouseProgram W}
    (marketplace : Marketplace.t) (pk : PublicKey) (l l' : Listing.t)
    (d : GetNftData.t) :
  Listing.address l = Listing.address l' ->
  Listing.price l = Listing.price l' ->
  cancelTransaction marketplace pk l d = cancelTransaction marketplace pk l' d /\
  (Listing.seller l = Listing.seller l' ->
   Listing.tradeState l = Listing.tradeState l' ->
   buyTransaction marketplace pk l d = buyTransaction marketplace pk l' d).
Proof.
  intros Ha Hp. split.
  - unfold cancelTransaction. rewrite Ha, Hp. reflexivity.
  - intros Hs Ht. unfold buyTransaction. rewrite Ha, Hp, Hs, Ht. reflexivity.
Qed.

(** The seller's listing, and one with another token size, other bumps,
    a purchase receipt and a time of cancellation. *)
Lemma listing_fields_read_witness :
  Listing.tokenSize Visit.relisted <> Listing.tokenSize Scenario.sellerListing /\
  Listing.canceledAt Visit.relisted <> Listing.canceledAt Scenario.sellerListing /\
  buyTransaction (AH := Mock.program) Scenario.marketplace
    (Mock.Address Scenario.buyer) Scenario.sellerListing Scenario.listed
  = buyTransaction (AH := Mock.program) Scenario.marketplace
      (Mock.Address Scenario.buyer) Visit.relisted Scenario.listed.
Proof.
  split; [discriminate|]. split; [discriminate|].
  apply (listing_fields_read (AH := Mock.program) Scenario.marketplace
           (Mock.Address Scenario.buyer) Scenario.sellerListing Visit.relisted
           Scenario.listed eq_refl eq_refl); reflexivity.
Defined.

(** [find] gives the first element that passes the test. *)
Lemma find_first {A : Type} (f : A -> bool) (ls : list A) (x : A) :
  find f ls = Some x <->
  exists before after,
    ls = (before ++ x :: after)%list /\ f x = true /\
    Forall (fun y => f y = false) before.
Proof.
  induction ls as [|y ls IH]; cbn.
  - split; [discriminate|].
    intros (before & after & H & _). destruct before; discriminate H.
  - destruct (f y) eqn:Hy.
    + split.
      * intros H. injection H as <-. exists [], ls. auto.
      * intros ([|z before] & after & Hls & Hx & Hb).
        -- injection Hls as -> _. reflexivity.
        -- injection Hls as <- _. inversion Hb. congruence.
    + rewrite IH. split.
      * intros (before & after & -> & Hx & Hb).
        exists (y :: before), after. auto.
      * intros ([|z before] & after & Hls & Hx & Hb).
        -- injection Hls as <- _. congruence.
        -- injection Hls as _ ->. inversion Hb. eauto.
Qed.

(** X16. The listing the handlers act on is the first listing of the
    snapshot whose auction house is the marketplace's: the listings
    before it are on other auction houses, and nothing else of a
    listing decides whether it is found. *)
Theorem listing_is_the_first_of_the_auction_house (marketplace : Marketplace.t)
    (data : option GetNftData.t) (l : Listing.t) :
  listing marketplace data = Some l <->
  exists d before after,
    data = Some d /\
    Nft.listings (GetNftData.nft d) = (before ++ l :: after)%list /\
    Listing.auctionHouse l
    = AuctionHouse.address (Marketplace.auctionHouse marketplace) /\
    Forall (fun other =>
              Listing.auctionHouse other
              <> AuctionHouse.address (Marketplace.auctionHouse marketplace))
           before.
Proof.
  unfold listing, isMarketplaceAuctionHouse.
  destruct data as [d|].
  2: { split; [discriminate|]. intros (d & ? & ? & H & _). discriminate H. }
  rewrite find_first. split.
  - intros (before & after & Hls & Hah & Hb).
    exists d, before, after. apply String.eqb_eq in Hah.
    repeat split; auto.
    eapply Forall_impl; [|exact Hb]. cbn.
    intros other H. apply String.eqb_neq in H. congruence.
  - intros (d' & before & after & Hd & Hls & Hah & Hb).
    injection Hd as <-. exists before, after.
    repeat split; auto.
    + apply String.eqb_eq. congruence.
    + eapply Forall_impl; [|exact Hb]. cbn.
      intros other H. apply String.eqb_neq. congruence.
Qed.

(** X17. In the buy builder the receipts are derived from the trade
    states of the same run: the bid receipt from the buyer's trade
    state that the public-bid derivation has just given, the purchase
    receipt from the trade state stored in the listing and that same
    buyer's trade state.  The buyer's trade state is derived for the
    viewer at the price of the listing, and the free trade state for
    the seller of the listing at price 0, both for one token. *)
Theorem receipts_follow_the_trade_states {W : Web3} {AH : AuctionHouseProgram W}
    (marketplace : Marketplace.t) (pk : PublicKey) (l : Listing.t)
    (d : GetNftData.t) :
  let derived := finds (trace (buyTransaction marketplace pk l d)) in
  (forall r,
      In (FindBidReceiptAddress, r) derived ->
      exists buyerTradeState bump,
        In (FindPublicBidTradeStateAddress, (buyerTradeState, bump)) derived /\
        r = findBidReceiptAddress buyerTradeState) /\
  (forall r,
      In (FindPurchaseReceiptAddress, r) derived ->
      exists sellerTradeState buyerTradeState bump,
        PublicKey_new (Listing.tradeState l) = Normal sellerTradeState /\
        In (FindPublicBidTradeStateAddress, (buyerTradeState, bump)) derived /\
        r = findPurchaseReceiptAddress sellerTradeState buyerTradeState) /\
  (forall r,
      In (FindPublicBidTradeStateAddress, r) derived ->
      exists auctionHouse treasuryMint tokenMint buyerPrice,
        toNumber (Listing.price l) = Normal buyerPrice /\
        r = findPublicBidTradeStateAddress pk auctionHouse treasuryMint
              tokenMint buyerPrice 1) /\
  (forall r,
      In (FindTradeStateAddress, r) derived ->
      exists seller auctionHouse tokenAccount treasuryMint tokenMint,
        PublicKey_new (Listing.seller l) = Normal seller /\
        r = findTradeStateAddress seller auctionHouse tokenAccount treasuryMint
              tokenMint 0 1).
Proof.
  cbv zeta.
  unfold buyTransaction, new_PublicKey, awaitFind, create. run_async.
  pose proof (creatorAccounts_trace (Nft.creators (GetNftData.nft d))) as Hc.
  repeat (break_match; cbn in *; subst).
  all: repeat split; intros r Hin; in_cases.
  all: try solve [do 2 eexists; split;
                  [cbn; repeat (first [left; reflexivity | right])
                  |symmetry; eassumption]].
  all: try solve [do 3 eexists; split; [first [eassumption|reflexivity]|]; split;
                  [cbn; repeat (first [left; reflexivity | right])
                  |symmetry; eassumption]].
  all: try solve [do 4 eexists; split; [first [eassumption|reflexivity]|symmetry; eassumption]].
  all: try solve [do 5 eexists; split; [first [eassumption|reflexivity]|symmetry; eassumption]].
Qed.

Lemma receipts_follow_the_trade_states_witness :
  let derived :=
    finds (trace (buyTransaction (AH := Mock.program) Scenario.marketplace
                    (Mock.Address Scenario.buyer) Scenario.sellerListing
                    Scenario.listed)) in
  exists r,
    In (FindPurchaseReceiptAddress, r) derived /\
    exists sellerTradeState buyerTradeState bump,
      PublicKey_new (Listing.tradeState Scenario.sellerListing)
      = Normal sellerTradeState /\
      In (FindPublicBidTradeStateAddress, (buyerTradeState, bump)) derived /\
      r = findPurchaseReceiptAddress (AuctionHouseProgram := Mock.program)
            sellerTradeState buyerTradeState.
Proof.
  cbv zeta. eexists. split.
  - cbv. do 7 right. left. reflexivity.
  - apply (proj1 (proj2 (receipts_follow_the_trade_states (AH := Mock.program)
                           Scenario.marketplace (Mock.Address Scenario.buyer)
                           Scenario.sellerListing Scenario.listed))).
    cbv. do 7 right. left. reflexivity.
Defined.
